(** * RTFusionRTQF: the RTQF orientation filter of RTIMULib

    A shallow embedding of [RTIMULib/RTFusionRTQF.cpp] and the properties of
    its predict / update / newIMUData cycle.

    The filter is written once, over an interface for the [RTFLOAT]
    arithmetic, so that every statement about control flow and state holds
    for whatever arithmetic the typedef selects.  Three instances are
    given: the real numbers (exact arithmetic, used for the algebraic
    properties) and IEEE binary32 and binary64 (machine arithmetic in
    single and in double precision, used to evaluate the code on concrete
    bit patterns). *)

From Stdlib Require Import ZArith Bool List String Floats.
From Stdlib Require Import Reals Lra.
Import ListNotations.

Set Implicit Arguments.

(** ** The arithmetic of [RTFLOAT] *)

(** The operations the file applies to [RTFLOAT] values.  [of_Z] is the
    conversion of an integer literal or integer value; [fticks a b] is
    [(RTFLOAT)(a - b)] for two timestamps, kept as one operation because the
    integer type of the timestamps is declared in a header outside this
    file. *)
Class RTFloat (F : Type) := {
  fadd : F -> F -> F;
  fsub : F -> F -> F;
  fmul : F -> F -> F;
  fdiv : F -> F -> F;
  fneg : F -> F;
  fsqrt : F -> F;
  fle : F -> F -> bool;
  of_Z : Z -> F;
  fticks : Z -> Z -> F
}.

(** The calls into the C math library made by the slerp correction and by
    the Euler conversion. *)
Class RTLibm (F : Type) := {
  fsin : F -> F;
  fcos : F -> F;
  facos : F -> F
}.

Declare Scope rt_scope.
Delimit Scope rt_scope with rt.
Infix "+" := fadd : rt_scope.
Infix "-" := fsub : rt_scope.
Infix "*" := fmul : rt_scope.
Infix "/" := fdiv : rt_scope.
Notation "- x" := (fneg x) : rt_scope.
Infix "<=?" := fle : rt_scope.

(** ** Data model *)

(** Modelled from the spec: [RTVector3] is declared outside this file;
    section 3: three floating-point components (x, y, z). *)
Record RTVector3 (F : Type) := mkVector3 { vx : F; vy : F; vz : F }.

(** Modelled from the spec: [RTQuaternion] is declared outside this file;
    section 3: four floating-point components, the scalar and a
    3-vector. *)
Record RTQuaternion (F : Type) := mkQuaternion {
  scalar : F; qx : F; qy : F; qz : F
}.

(** Modelled from the spec: [RTMatrix4x4] is declared outside this file;
    section 3: a 4x4 matrix of coefficients, kept here as four rows of four
    entries. *)
Record RTRow (F : Type) := mkRow { c0 : F; c1 : F; c2 : F; c3 : F }.

(** Modelled from the spec: the four rows of [RTMatrix4x4] (section 3). *)
Record RTMatrix4x4 (F : Type) := mkMatrix {
  r0 : RTRow F; r1 : RTRow F; r2 : RTRow F; r3 : RTRow F
}.

(** Modelled from the spec: [RTIMU_DATA] is declared outside this file;
    section 6: a timestamp in integer microseconds, the gyro, accel and
    compass vectors, the validity flag of the compass reading, and the
    output fields (fused pose, fused quaternion, their two validity flags).
    These are the fields [newIMUData] reads or writes. *)
Record RTIMU_DATA (F : Type) := mkData {
  timestamp : Z;
  fusionPoseValid : bool;
  fusionPose : RTVector3 F;
  fusionQPoseValid : bool;
  fusionQPose : RTQuaternion F;
  gyro : RTVector3 F;
  accel : RTVector3 F;
  compass : RTVector3 F;
  compassValid : bool
}.

(** Modelled from the spec: [RTIMUSettings] is declared outside this file;
    section 6: it supplies one scalar, the magnetic declination. *)
Record RTIMUSettings (F : Type) := mkSettings {
  m_compassAdjDeclination : F
}.

(** Modelled from the spec: the class and its base class are declared
    outside this file; these are the members the file reads or writes, with
    the types of section 3 (flags, a timestamp and a counter as integers,
    gains and [timeDelta] as [RTFLOAT], vectors, quaternions, the transition
    matrix). *)
Record RTFusionRTQF (F : Type) := mkRTQF {
  m_debug : bool;
  m_enableGyro : bool;
  m_enableAccel : bool;
  m_enableCompass : bool;
  m_compassValid : bool;
  m_firstTime : bool;
  m_lastFusionTime : Z;
  m_sampleNumber : Z;
  m_timeDelta : F;
  m_Q : F;
  m_R : F;
  m_slerpPower : F;
  m_gyro : RTVector3 F;
  m_accel : RTVector3 F;
  m_compass : RTVector3 F;
  m_measuredPose : RTVector3 F;
  m_measuredQPose : RTQuaternion F;
  m_fusionPose : RTVector3 F;
  m_fusionQPose : RTQuaternion F;
  m_stateQ : RTQuaternion F;
  m_stateQError : RTQuaternion F;
  m_Fk : RTMatrix4x4 F;
  m_rotationDelta : RTQuaternion F;
  m_rotationPower : RTQuaternion F;
  m_rotationUnitVector : RTVector3 F
}.

(** Modelled from the spec: the macros [HAL_INFO] and [HAL_INFO2] and the
    formatters [RTMath::displayRadians] and [RTMath::display] are defined
    outside this file; section 6 says that they emit trace lines
    (delta-time, sample index, poses, quaternions) to an external sink.  A
    line handed to the sink is kept as the format or label together with
    the values formatted, and the arguments of a macro are evaluated when
    it is reached. *)
Inductive HAL_line (F : Type) : Type :=
| Info (m : string)
| Info2 (m : string) (x : F) (y : Z)
| InfoRadians (label : string) (vec : RTVector3 F)
| InfoQuat (label : string) (quat : RTQuaternion F).

Arguments Info {F} m.
Arguments Info2 {F} m x y.

(** ** Assignments to single members *)

Section Setters.
Context {F : Type}.
Local Abbreviation St := (RTFusionRTQF F).

Definition set_m_debug (v : bool) (s : St) : St :=
  let '(mkRTQF _ a2 a3 a4 a5 a6 a7 a8 a9 a10 a11 a12 a13 a14 a15 a16 a17 a18
               a19 a20 a21 a22 a23 a24 a25) := s in
  mkRTQF v a2 a3 a4 a5 a6 a7 a8 a9 a10 a11 a12 a13 a14 a15 a16 a17 a18
         a19 a20 a21 a22 a23 a24 a25.

Definition set_m_enableGyro (v : bool) (s : St) : St :=
  let '(mkRTQF a1 _ a3 a4 a5 a6 a7 a8 a9 a10 a11 a12 a13 a14 a15 a16 a17 a18
               a19 a20 a21 a22 a23 a24 a25) := s in
  mkRTQF a1 v a3 a4 a5 a6 a7 a8 a9 a10 a11 a12 a13 a14 a15 a16 a17 a18
         a19 a20 a21 a22 a23 a24 a25.

Definition set_m_enableAccel (v : bool) (s : St) : St :=
  let '(mkRTQF a1 a2 _ a4 a5 a6 a7 a8 a9 a10 a11 a12 a13 a14 a15 a16 a17 a18
               a19 a20 a21 a22 a23 a24 a25) := s in
  mkRTQF a1 a2 v a4 a5 a6 a7 a8 a9 a10 a11 a12 a13 a14 a15 a16 a17 a18
         a19 a20 a21 a22 a23 a24 a25.

Definition set_m_enableCompass (v : bool) (s : St) : St :=
  let '(mkRTQF a1 a2 a3 _ a5 a6 a7 a8 a9 a10 a11 a12 a13 a14 a15 a16 a17 a18
               a19 a20 a21 a22 a23 a24 a25) := s in
  mkRTQF a1 a2 a3 v a5 a6 a7 a8 a9 a10 a11 a12 a13 a14 a15 a16 a17 a18
         a19 a20 a21 a22 a23 a24 a25.

Definition set_m_compassValid (v : bool) (s : St) : St :=
  let '(mkRTQF a1 a2 a3 a4 _ a6 a7 a8 a9 a10 a11 a12 a13 a14 a15 a16 a17 a18
               a19 a20 a21 a22 a23 a24 a25) := s in
  mkRTQF a1 a2 a3 a4 v a6 a7 a8 a9 a10 a11 a12 a13 a14 a15 a16 a17 a18
         a19 a20 a21 a22 a23 a24 a25.

Definition set_m_firstTime (v : bool) (s : St) : St :=
  let '(mkRTQF a1 a2 a3 a4 a5 _ a7 a8 a9 a10 a11 a12 a13 a14 a15 a16 a17 a18
               a19 a20 a21 a22 a23 a24 a25) := s in
  mkRTQF a1 a2 a3 a4 a5 v a7 a8 a9 a10 a11 a12 a13 a14 a15 a16 a17 a18
         a19 a20 a21 a22 a23 a24 a25.

Definition set_m_lastFusionTime (v : Z) (s : St) : St :=
  let '(mkRTQF a1 a2 a3 a4 a5 a6 _ a8 a9 a10 a11 a12 a13 a14 a15 a16 a17 a18
               a19 a20 a21 a22 a23 a24 a25) := s in
  mkRTQF a1 a2 a3 a4 a5 a6 v a8 a9 a10 a11 a12 a13 a14 a15 a16 a17 a18
         a19 a20 a21 a22 a23 a24 a25.

Definition set_m_sampleNumber (v : Z) (s : St) : St :=
  let '(mkRTQF a1 a2 a3 a4 a5 a6 a7 _ a9 a10 a11 a12 a13 a14 a15 a16 a17 a18
               a19 a20 a21 a22 a23 a24 a25) := s in
  mkRTQF a1 a2 a3 a4 a5 a6 a7 v a9 a10 a11 a12 a13 a14 a15 a16 a17 a18
         a19 a20 a21 a22 a23 a24 a25.

Definition set_m_timeDelta (v : F) (s : St) : St :=
  let '(mkRTQF a1 a2 a3 a4 a5 a6 a7 a8 _ a10 a11 a12 a13 a14 a15 a16 a17 a18
               a19 a20 a21 a22 a23 a24 a25) := s in
  mkRTQF a1 a2 a3 a4 a5 a6 a7 a8 v a10 a11 a12 a13 a14 a15 a16 a17 a18
         a19 a20 a21 a22 a23 a24 a25.

Definition set_m_Q (v : F) (s : St) : St :=
  let '(mkRTQF a1 a2 a3 a4 a5 a6 a7 a8 a9 _ a11 a12 a13 a14 a15 a16 a17 a18
               a19 a20 a21 a22 a23 a24 a25) := s in
  mkRTQF a1 a2 a3 a4 a5 a6 a7 a8 a9 v a11 a12 a13 a14 a15 a16 a17 a18
         a19 a20 a21 a22 a23 a24 a25.

Definition set_m_R (v : F) (s : St) : St :=
  let '(mkRTQF a1 a2 a3 a4 a5 a6 a7 a8 a9 a10 _ a12 a13 a14 a15 a16 a17 a18
               a19 a20 a21 a22 a23 a24 a25) := s in
  mkRTQF a1 a2 a3 a4 a5 a6 a7 a8 a9 a10 v a12 a13 a14 a15 a16 a17 a18
         a19 a20 a21 a22 a23 a24 a25.

Definition set_m_slerpPower (v : F) (s : St) : St :=
  let '(mkRTQF a1 a2 a3 a4 a5 a6 a7 a8 a9 a10 a11 _ a13 a14 a15 a16 a17 a18
               a19 a20 a21 a22 a23 a24 a25) := s in
  mkRTQF a1 a2 a3 a4 a5 a6 a7 a8 a9 a10 a11 v a13 a14 a15 a16 a17 a18
         a19 a20 a21 a22 a23 a24 a25.

Definition set_m_gyro (v : RTVector3 F) (s : St) : St :=
  let '(mkRTQF a1 a2 a3 a4 a5 a6 a7 a8 a9 a10 a11 a12 _ a14 a15 a16 a17 a18
               a19 a20 a21 a22 a23 a24 a25) := s in
  mkRTQF a1 a2 a3 a4 a5 a6 a7 a8 a9 a10 a11 a12 v a14 a15 a16 a17 a18
         a19 a20 a21 a22 a23 a24 a25.

Definition set_m_accel (v : RTVector3 F) (s : St) : St :=
  let '(mkRTQF a1 a2 a3 a4 a5 a6 a7 a8 a9 a10 a11 a12 a13 _ a15 a16 a17 a18
               a19 a20 a21 a22 a23 a24 a25) := s in
  mkRTQF a1 a2 a3 a4 a5 a6 a7 a8 a9 a10 a11 a12 a13 v a15 a16 a17 a18
         a19 a20 a21 a22 a23 a24 a25.

Definition set_m_compass (v : RTVector3 F) (s : St) : St :=
  let '(mkRTQF a1 a2 a3 a4 a5 a6 a7 a8 a9 a10 a11 a12 a13 a14 _ a16 a17 a18
               a19 a20 a21 a22 a23 a24 a25) := s in
  mkRTQF a1 a2 a3 a4 a5 a6 a7 a8 a9 a10 a11 a12 a13 a14 v a16 a17 a18
         a19 a20 a21 a22 a23 a24 a25.

Definition set_m_measuredPose (v : RTVector3 F) (s : St) : St :=
  let '(mkRTQF a1 a2 a3 a4 a5 a6 a7 a8 a9 a10 a11 a12 a13 a14 a15 _ a17 a18
               a19 a20 a21 a22 a23 a24 a25) := s in
  mkRTQF a1 a2 a3 a4 a5 a6 a7 a8 a9 a10 a11 a12 a13 a14 a15 v a17 a18
         a19 a20 a21 a22 a23 a24 a25.

Definition set_m_measuredQPose (v : RTQuaternion F) (s : St) : St :=
  let '(mkRTQF a1 a2 a3 a4 a5 a6 a7 a8 a9 a10 a11 a12 a13 a14 a15 a16 _ a18
               a19 a20 a21 a22 a23 a24 a25) := s in
  mkRTQF a1 a2 a3 a4 a5 a6 a7 a8 a9 a10 a11 a12 a13 a14 a15 a16 v a18
         a19 a20 a21 a22 a23 a24 a25.

Definition set_m_fusionPose (v : RTVector3 F) (s : St) : St :=
  let '(mkRTQF a1 a2 a3 a4 a5 a6 a7 a8 a9 a10 a11 a12 a13 a14 a15 a16 a17 _
               a19 a20 a21 a22 a23 a24 a25) := s in
  mkRTQF a1 a2 a3 a4 a5 a6 a7 a8 a9 a10 a11 a12 a13 a14 a15 a16 a17 v
         a19 a20 a21 a22 a23 a24 a25.

Definition set_m_fusionQPose (v : RTQuaternion F) (s : St) : St :=
  let '(mkRTQF a1 a2 a3 a4 a5 a6 a7 a8 a9 a10 a11 a12 a13 a14 a15 a16 a17 a18
               _ a20 a21 a22 a23 a24 a25) := s in
  mkRTQF a1 a2 a3 a4 a5 a6 a7 a8 a9 a10 a11 a12 a13 a14 a15 a16 a17 a18
         v a20 a21 a22 a23 a24 a25.

Definition set_m_stateQ (v : RTQuaternion F) (s : St) : St :=
  let '(mkRTQF a1 a2 a3 a4 a5 a6 a7 a8 a9 a10 a11 a12 a13 a14 a15 a16 a17 a18
               a19 _ a21 a22 a23 a24 a25) := s in
  mkRTQF a1 a2 a3 a4 a5 a6 a7 a8 a9 a10 a11 a12 a13 a14 a15 a16 a17 a18
         a19 v a21 a22 a23 a24 a25.

Definition set_m_stateQError (v : RTQuaternion F) (s : St) : St :=
  let '(mkRTQF a1 a2 a3 a4 a5 a6 a7 a8 a9 a10 a11 a12 a13 a14 a15 a16 a17 a18
               a19 a20 _ a22 a23 a24 a25) := s in
  mkRTQF a1 a2 a3 a4 a5 a6 a7 a8 a9 a10 a11 a12 a13 a14 a15 a16 a17 a18
         a19 a20 v a22 a23 a24 a25.

Definition set_m_Fk (v : RTMatrix4x4 F) (s : St) : St :=
  let '(mkRTQF a1 a2 a3 a4 a5 a6 a7 a8 a9 a10 a11 a12 a13 a14 a15 a16 a17 a18
               a19 a20 a21 _ a23 a24 a25) := s in
  mkRTQF a1 a2 a3 a4 a5 a6 a7 a8 a9 a10 a11 a12 a13 a14 a15 a16 a17 a18
         a19 a20 a21 v a23 a24 a25.

Definition set_m_rotationDelta (v : RTQuaternion F) (s : St) : St :=
  let '(mkRTQF a1 a2 a3 a4 a5 a6 a7 a8 a9 a10 a11 a12 a13 a14 a15 a16 a17 a18
               a19 a20 a21 a22 _ a24 a25) := s in
  mkRTQF a1 a2 a3 a4 a5 a6 a7 a8 a9 a10 a11 a12 a13 a14 a15 a16 a17 a18
         a19 a20 a21 a22 v a24 a25.

Definition set_m_rotationPower (v : RTQuaternion F) (s : St) : St :=
  let '(mkRTQF a1 a2 a3 a4 a5 a6 a7 a8 a9 a10 a11 a12 a13 a14 a15 a16 a17 a18
               a19 a20 a21 a22 a23 _ a25) := s in
  mkRTQF a1 a2 a3 a4 a5 a6 a7 a8 a9 a10 a11 a12 a13 a14 a15 a16 a17 a18
         a19 a20 a21 a22 a23 v a25.

Definition set_m_rotationUnitVector (v : RTVector3 F) (s : St) : St :=
  let '(mkRTQF a1 a2 a3 a4 a5 a6 a7 a8 a9 a10 a11 a12 a13 a14 a15 a16 a17 a18
               a19 a20 a21 a22 a23 a24 _) := s in
  mkRTQF a1 a2 a3 a4 a5 a6 a7 a8 a9 a10 a11 a12 a13 a14 a15 a16 a17 a18
         a19 a20 a21 a22 a23 a24 v.

(** The four assignments to the caller's record at the end of
    [newIMUData]. *)
Definition set_fusion (pose : RTVector3 F) (qpose : RTQuaternion F)
           (d : RTIMU_DATA F) : RTIMU_DATA F :=
  {| timestamp := timestamp d;
     fusionPoseValid := true;
     fusionPose := pose;
     fusionQPoseValid := true;
     fusionQPose := qpose;
     gyro := gyro d;
     accel := accel d;
     compass := compass d;
     compassValid := compassValid d |}.
End Setters.

(** ** The vector, quaternion and matrix operations used by the filter *)

Section RTMath.
Context {F : Type} {RF : RTFloat F} {RL : RTLibm F}.
Local Open Scope rt_scope.

(** Modelled from the spec: the default constructors [RTVector3()] and
    [RTQuaternion()] are defined outside this file; section 3 has the
    state created with a zero pose, and section 4.3 has the correction
    vanish when the error is default-constructed, so both are all-zero. *)
Definition RTVector3_zero : RTVector3 F :=
  mkVector3 (of_Z 0) (of_Z 0) (of_Z 0).

(** Modelled from the spec: the default [RTQuaternion()], all-zero as the
    default vector is. *)
Definition RTQuaternion_zero : RTQuaternion F :=
  mkQuaternion (of_Z 0) (of_Z 0) (of_Z 0) (of_Z 0).

(** Modelled from the spec: the quaternion operators are defined outside
    this file; section 3 lists them (subtraction, scalar multiply,
    multiplication as composition of rotations, conjugate), and section
    4.3 has subtraction and scaling component-wise.  [qadd] is
    [operator +=]. *)
Definition qadd (a b : RTQuaternion F) : RTQuaternion F :=
  mkQuaternion (scalar a + scalar b) (qx a + qx b) (qy a + qy b)
               (qz a + qz b).

(** Modelled from the spec: [operator -], component-wise (section 4.3). *)
Definition qsub (a b : RTQuaternion F) : RTQuaternion F :=
  mkQuaternion (scalar a - scalar b) (qx a - qx b) (qy a - qy b)
               (qz a - qz b).

(** Modelled from the spec: [operator *] and [operator *=] by a scalar,
    component-wise (section 4.3). *)
Definition qscale (a : RTQuaternion F) (k : F) : RTQuaternion F :=
  mkQuaternion (scalar a * k) (qx a * k) (qy a * k) (qz a * k).

(** Modelled from the spec: [conjugate] (section 3), the vector part
    negated. *)
Definition conjugate (a : RTQuaternion F) : RTQuaternion F :=
  mkQuaternion (scalar a) (- qx a) (- qy a) (- qz a).

(** Modelled from the spec: [operator *] and [operator *=] of two
    quaternions, the composition of rotations (section 3), that is, the
    Hamilton product. *)
Definition qmul (a b : RTQuaternion F) : RTQuaternion F :=
  mkQuaternion
    (scalar a * scalar b - qx a * qx b - qy a * qy b - qz a * qz b)
    (scalar a * qx b + qx a * scalar b + qy a * qz b - qz a * qy b)
    (scalar a * qy b - qx a * qz b + qy a * scalar b + qz a * qx b)
    (scalar a * qz b + qx a * qy b - qy a * qx b + qz a * scalar b).

(** Modelled from the spec: [normalize] is defined outside this file;
    sections 3 and 4.3 have it rescale to unit length, that is, divide
    every component by the Euclidean length. *)
Definition qlength (a : RTQuaternion F) : F :=
  fsqrt (scalar a * scalar a + qx a * qx a + qy a * qy a + qz a * qz a).

(** Modelled from the spec: [RTQuaternion::normalize] (sections 3 and
    4.3), every component divided by the length. *)
Definition qnormalize (a : RTQuaternion F) : RTQuaternion F :=
  let length := qlength a in
  mkQuaternion (scalar a / length) (qx a / length) (qy a / length)
               (qz a / length).

(** Modelled from the spec: the Euclidean length of a vector, as for a
    quaternion. *)
Definition vlength (v : RTVector3 F) : F :=
  fsqrt (vx v * vx v + vy v * vy v + vz v * vz v).

(** Modelled from the spec: [RTVector3::normalize], as for a
    quaternion. *)
Definition vnormalize (v : RTVector3 F) : RTVector3 F :=
  let length := vlength v in
  mkVector3 (vx v / length) (vy v / length) (vz v / length).

(** Modelled from the spec: [fromEuler] is defined outside this file;
    section 3 fixes the order roll-pitch-yaw and has every quaternion
    renormalized after a mutating operation, so it is the half-angle
    product of the three axis rotations, normalized. *)
Definition fromEuler (vec : RTVector3 F) : RTQuaternion F :=
  let cosX2 := fcos (vx vec / of_Z 2) in
  let sinX2 := fsin (vx vec / of_Z 2) in
  let cosY2 := fcos (vy vec / of_Z 2) in
  let sinY2 := fsin (vy vec / of_Z 2) in
  let cosZ2 := fcos (vz vec / of_Z 2) in
  let sinZ2 := fsin (vz vec / of_Z 2) in
  qnormalize
    (mkQuaternion
       (cosX2 * cosY2 * cosZ2 + sinX2 * sinY2 * sinZ2)
       (sinX2 * cosY2 * cosZ2 - cosX2 * sinY2 * sinZ2)
       (cosX2 * sinY2 * cosZ2 + sinX2 * cosY2 * sinZ2)
       (cosX2 * cosY2 * sinZ2 - sinX2 * sinY2 * cosZ2)).

(** Modelled from the spec: [fill], [val], [setVal] and the product of an
    [RTMatrix4x4] with a quaternion are defined outside this file; section
    3 has the matrix hold the coefficients and section 4.2 has
    [Fk * stateQ] as the matrix-vector product.  Every call in this file
    uses literal indices below 4; in [setVal] an index of 4 or more leaves
    the matrix as it is.  [fill] sets every entry. *)
Definition fill (v : F) : RTMatrix4x4 F :=
  let row := mkRow v v v v in mkMatrix row row row row.

(** Modelled from the spec: the entry of a row at a column. *)
Definition row_val (col : nat) (r : RTRow F) : F :=
  match col with
  | 0%nat => c0 r | 1%nat => c1 r | 2%nat => c2 r | _ => c3 r
  end.

(** Modelled from the spec: a row with one entry replaced. *)
Definition row_setVal (col : nat) (v : F) (r : RTRow F) : RTRow F :=
  match col with
  | 0%nat => mkRow v (c1 r) (c2 r) (c3 r)
  | 1%nat => mkRow (c0 r) v (c2 r) (c3 r)
  | 2%nat => mkRow (c0 r) (c1 r) v (c3 r)
  | 3%nat => mkRow (c0 r) (c1 r) (c2 r) v
  | _ => r
  end.

(** Modelled from the spec: [val(row, col)]. *)
Definition val (row col : nat) (m : RTMatrix4x4 F) : F :=
  match row with
  | 0%nat => row_val col (r0 m)
  | 1%nat => row_val col (r1 m)
  | 2%nat => row_val col (r2 m)
  | _ => row_val col (r3 m)
  end.

(** Modelled from the spec: [setVal(row, col, val)]. *)
Definition setVal (row col : nat) (v : F) (m : RTMatrix4x4 F)
  : RTMatrix4x4 F :=
  match row with
  | 0%nat => mkMatrix (row_setVal col v (r0 m)) (r1 m) (r2 m) (r3 m)
  | 1%nat => mkMatrix (r0 m) (row_setVal col v (r1 m)) (r2 m) (r3 m)
  | 2%nat => mkMatrix (r0 m) (r1 m) (row_setVal col v (r2 m)) (r3 m)
  | 3%nat => mkMatrix (r0 m) (r1 m) (r2 m) (row_setVal col v (r3 m))
  | _ => m
  end.

(** Modelled from the spec: one row of the matrix-vector product
    (section 4.2). *)
Definition row_dot (r : RTRow F) (q : RTQuaternion F) : F :=
  c0 r * scalar q + c1 r * qx q + c2 r * qy q + c3 r * qz q.

(** Modelled from the spec: [operator *] of a matrix and a quaternion,
    the matrix-vector product (section 4.2). *)
Definition mat_mul_quat (m : RTMatrix4x4 F) (q : RTQuaternion F)
  : RTQuaternion F :=
  mkQuaternion (row_dot (r0 m) q) (row_dot (r1 m) q) (row_dot (r2 m) q)
               (row_dot (r3 m) q).
End RTMath.

(** ** The filter *)

Section RTFusionRTQF.
Context {F : Type} {RF : RTFloat F} {RL : RTLibm F}.
Local Open Scope rt_scope.

(** [#ifdef USE_SLERP]: the build-time choice of the correction. *)
Variable USE_SLERP : bool.

(** Modelled from the spec: [calculatePose] belongs to the base class and
    is defined outside this file.  Section 4.1: it derives the measured
    pose from the accelerometer, and from the compass with the declination
    when the compass is enabled and valid, and it writes nothing but
    [m_measuredPose] and [m_measuredQPose].  It is a parameter of the
    development, given the enable flags, the compass validity, the
    published fusion pose and quaternion, and its three arguments. *)
Variable calculatePose :
  bool -> bool -> bool -> RTVector3 F -> RTQuaternion F ->
  RTVector3 F -> RTVector3 F -> F -> RTVector3 F * RTQuaternion F.

(** Modelled from the spec: [toEuler] is defined outside this file and
    section 9 leaves the Euler convention to the math library; it is a
    parameter of the development. *)
Variable toEuler : RTQuaternion F -> RTVector3 F.

Local Abbreviation St := (RTFusionRTQF F).

(** The call [calculatePose(accel, mag, magDeclination)] on the object. *)
Definition do_calculatePose (acc mag : RTVector3 F) (magDeclination : F)
           (s : St) : St :=
  let r := calculatePose (m_enableAccel s) (m_enableCompass s)
                         (m_compassValid s) (m_fusionPose s)
                         (m_fusionQPose s) acc mag magDeclination in
  set_m_measuredQPose (snd r) (set_m_measuredPose (fst r) s).

(** [#define RTQF_SLERP_POWER (RTFLOAT)0.02]: a double-precision literal,
    whose value is the binary fraction 0x1.47ae147ae147bp-6, that is
    5764607523034235 / 2^58, converted to [RTFLOAT].  The quotient of the
    two integer conversions is that value in an arithmetic that holds it
    and its rounding in a narrower one. *)
Definition RTQF_SLERP_POWER : F :=
  of_Z 5764607523034235 / of_Z 288230376151711744.

(** [#define RTQF_QVALUE 0.001f]: a single-precision literal, whose value
    is the binary fraction 0x1.0624dep-10, that is 8589935 / 2^33, and not
    the decimal 1/1000.  Both integers and their quotient are values of
    single and of double precision, so the quotient of the two conversions
    is that value whichever of the two [RTFLOAT] is. *)
Definition RTQF_QVALUE : F := of_Z 8589935 / of_Z 8589934592.

(** [#define RTQF_RVALUE 0.0005f]: the single-precision literal
    0x1.0624dep-11, that is 8589935 / 2^34, half of [RTQF_QVALUE]. *)
Definition RTQF_RVALUE : F := of_Z 8589935 / of_Z 17179869184.

(** [RTFusionRTQF::reset] *)
Definition reset (s : St) : St :=
  let s := set_m_firstTime true s in
  let s := set_m_fusionPose RTVector3_zero s in
  let s := set_m_fusionQPose (fromEuler (m_fusionPose s)) s in
  let s := set_m_gyro RTVector3_zero s in
  let s := set_m_accel RTVector3_zero s in
  let s := set_m_compass RTVector3_zero s in
  let s := set_m_measuredPose RTVector3_zero s in
  let s := set_m_measuredQPose (fromEuler (m_measuredPose s)) s in
  set_m_sampleNumber 0 s.

(** [RTFusionRTQF::RTFusionRTQF], run on the object as the base-class
    constructor left it. *)
Definition RTFusionRTQF_init (s : St) : St :=
  let s := if USE_SLERP
           then set_m_slerpPower RTQF_SLERP_POWER s
           else set_m_R RTQF_RVALUE (set_m_Q RTQF_QVALUE s) in
  reset s.

(** [RTFusionRTQF::predict] *)
Definition predict (s : St) : St :=
  let x2 := vx (m_gyro s) / of_Z 2 in
  let y2 := vy (m_gyro s) / of_Z 2 in
  let z2 := vz (m_gyro s) / of_Z 2 in
  let s := set_m_Fk (setVal 0 1 (- x2) (m_Fk s)) s in
  let s := set_m_Fk (setVal 0 2 (- y2) (m_Fk s)) s in
  let s := set_m_Fk (setVal 0 3 (- z2) (m_Fk s)) s in
  let s := set_m_Fk (setVal 1 0 x2 (m_Fk s)) s in
  let s := set_m_Fk (setVal 1 2 z2 (m_Fk s)) s in
  let s := set_m_Fk (setVal 1 3 (- y2) (m_Fk s)) s in
  let s := set_m_Fk (setVal 2 0 y2 (m_Fk s)) s in
  let s := set_m_Fk (setVal 2 1 (- z2) (m_Fk s)) s in
  let s := set_m_Fk (setVal 2 3 x2 (m_Fk s)) s in
  let s := set_m_Fk (setVal 3 0 z2 (m_Fk s)) s in
  let s := set_m_Fk (setVal 3 1 y2 (m_Fk s)) s in
  let s := set_m_Fk (setVal 3 2 (- x2) (m_Fk s)) s in
  let tQuat := mat_mul_quat (m_Fk s) (m_stateQ s) in
  let tQuat := qscale tQuat (m_timeDelta s) in
  set_m_stateQ (qadd (m_stateQ s) tQuat) s.

(** The first two statements of the slerp branch: the rotation from the
    state to the measurement, normalized. *)
Definition slerp_rotationDelta (s : St) : RTQuaternion F :=
  qnormalize (qmul (conjugate (m_stateQ s)) (m_measuredQPose s)).

(** The [#ifdef USE_SLERP] branch of [update], up to [#else]. *)
Definition update_slerp (s : St) : St :=
  if m_enableCompass s || m_enableAccel s then
    let s := set_m_rotationDelta (slerp_rotationDelta s) s in
    let theta := facos (scalar (m_rotationDelta s)) in
    let sinPowerTheta := fsin (theta * m_slerpPower s) in
    let cosPowerTheta := fcos (theta * m_slerpPower s) in
    let s := set_m_rotationUnitVector
               (vnormalize (mkVector3 (qx (m_rotationDelta s))
                                      (qy (m_rotationDelta s))
                                      (qz (m_rotationDelta s)))) s in
    let s := set_m_rotationPower
               (qnormalize
                  (mkQuaternion
                     cosPowerTheta
                     (sinPowerTheta * vx (m_rotationUnitVector s))
                     (sinPowerTheta * vy (m_rotationUnitVector s))
                     (sinPowerTheta * vz (m_rotationUnitVector s)))) s in
    set_m_stateQ (qmul (m_stateQ s) (m_rotationPower s)) s
  else s.

(** The [#else] branch of [update], up to [#endif]. *)
Definition update_linear (s : St) : St :=
  let s := if m_enableCompass s || m_enableAccel s
           then set_m_stateQError (qsub (m_measuredQPose s) (m_stateQ s)) s
           else set_m_stateQError RTQuaternion_zero s in
  let qt := m_Q s * m_timeDelta s in
  set_m_stateQ
    (qadd (m_stateQ s) (qscale (m_stateQError s) (qt / (qt + m_R s)))) s.

(** The correction of [update]: everything before the final
    [m_stateQ.normalize()]. *)
Definition update_correction (s : St) : St :=
  if USE_SLERP then update_slerp s else update_linear s.

(** [RTFusionRTQF::update] *)
Definition update (s : St) : St :=
  let s := update_correction s in
  set_m_stateQ (qnormalize (m_stateQ s)) s.

(** The value [newIMUData] gives [m_timeDelta] for a sample stamped [ts]:
    [(RTFLOAT)(data.timestamp - m_lastFusionTime) / (RTFLOAT)1000000]. *)
Definition timeDelta_of (ts : Z) (s : St) : F :=
  fticks ts (m_lastFusionTime s) / of_Z 1000000.

(** [RTFusionRTQF::newIMUData]: the object and the caller's record after
    the call, and the lines logged during it. *)
Definition newIMUData (s : St) (data : RTIMU_DATA F)
           (settings : RTIMUSettings F)
  : St * RTIMU_DATA F * list (HAL_line F) :=
  let '(s, log) :=
    if m_debug s
    then (set_m_sampleNumber (m_sampleNumber s + 1)%Z s,
          [Info "\n------\n";
           Info2 "IMU update delta time: %f, sample %d\n"
                 (m_timeDelta s) (m_sampleNumber s)])
    else (s, []) in
  let s := set_m_sampleNumber (m_sampleNumber s + 1)%Z s in
  let s := if m_enableGyro s
           then set_m_gyro (gyro data) s
           else set_m_gyro RTVector3_zero s in
  let s := set_m_accel (accel data) s in
  let s := set_m_compass (compass data) s in
  let s := set_m_compassValid (compassValid data) s in
  if m_firstTime s then
    let s := set_m_lastFusionTime (timestamp data) s in
    let s := do_calculatePose (m_accel s) (m_compass s)
                              (m_compassAdjDeclination settings) s in
    let s := set_m_Fk (fill (of_Z 0)) s in
    let s := set_m_stateQ (fromEuler (m_measuredPose s)) s in
    let s := set_m_fusionQPose (m_stateQ s) s in
    let s := set_m_fusionPose (m_measuredPose s) s in
    let s := set_m_firstTime false s in
    (s, set_fusion (m_fusionPose s) (m_fusionQPose s) data, log)
  else
    let s := set_m_timeDelta (timeDelta_of (timestamp data) s) s in
    let s := set_m_lastFusionTime (timestamp data) s in
    if m_timeDelta s <=? of_Z 0 then (s, data, log)
    else
      let s := do_calculatePose (accel data) (compass data)
                                (m_compassAdjDeclination settings) s in
      let s := predict s in
      let s := update s in
      let s := set_m_fusionPose (toEuler (m_stateQ s)) s in
      let s := set_m_fusionQPose (m_stateQ s) s in
      let log :=
        if m_debug s
        then log ++ [InfoRadians "Measured pose" (m_measuredPose s);
                     InfoRadians "RTQF pose" (m_fusionPose s);
                     InfoRadians "Measured quat" (m_measuredPose s);
                     InfoQuat "RTQF quat" (m_stateQ s);
                     InfoQuat "Error quat" (m_stateQError s)]
        else log in
      (s, set_fusion (m_fusionPose s) (m_fusionQPose s) data, log).

(** *** Descriptions used in the statements *)

(** The object after a call. *)
Definition state_after (r : St * RTIMU_DATA F * list (HAL_line F)) : St :=
  fst (fst r).

(** The caller's record after a call. *)
Definition data_after (r : St * RTIMU_DATA F * list (HAL_line F))
  : RTIMU_DATA F := snd (fst r).

(** The lines logged during a call. *)
Definition log_of (r : St * RTIMU_DATA F * list (HAL_line F))
  : list (HAL_line F) := snd r.

(** The members [newIMUData] writes before it looks at [m_firstTime]. *)
Definition bookkeeping (s : St) (data : RTIMU_DATA F) : St :=
  set_m_compassValid (compassValid data)
    (set_m_compass (compass data)
       (set_m_accel (accel data)
          (set_m_gyro (if m_enableGyro s then gyro data
                       else RTVector3_zero)
             (set_m_sampleNumber
                (m_sampleNumber s + (if m_debug s then 2 else 1))%Z s)))).

(** The squared length under the root in [normalize]. *)
Definition qnorm2 (a : RTQuaternion F) : F :=
  scalar a * scalar a + qx a * qx a + qy a * qy a + qz a * qz a.

(** The object as [predict] finds it on a sample that is kept: the
    bookkeeping done, [m_timeDelta] and [m_lastFusionTime] set, the
    measured pose computed. *)
Definition accepted_input (s : St) (data : RTIMU_DATA F)
           (settings : RTIMUSettings F) : St :=
  do_calculatePose (accel data) (compass data)
    (m_compassAdjDeclination settings)
    (set_m_lastFusionTime (timestamp data)
       (set_m_timeDelta (timeDelta_of (timestamp data) s)
          (bookkeeping s data))).


(** The partial rotation the slerp branch builds from a rotation delta
    [rd] and a power. *)
Definition rotationPower_of (rd : RTQuaternion F) (power : F)
  : RTQuaternion F :=
  let theta := facos (scalar rd) in
  let u := vnormalize (mkVector3 (qx rd) (qy rd) (qz rd)) in
  qnormalize (mkQuaternion (fcos (theta * power))
                           (fsin (theta * power) * vx u)
                           (fsin (theta * power) * vy u)
                           (fsin (theta * power) * vz u)).

(** The matrix [predict] leaves in [m_Fk]: the twelve off-diagonal
    entries written, the diagonal as it was. *)
Definition Fk_of (gyr : RTVector3 F) (old : RTMatrix4x4 F) : RTMatrix4x4 F :=
  let x2 := vx gyr / of_Z 2 in
  let y2 := vy gyr / of_Z 2 in
  let z2 := vz gyr / of_Z 2 in
  mkMatrix (mkRow (c0 (r0 old)) (- x2) (- y2) (- z2))
           (mkRow x2 (c1 (r1 old)) z2 (- y2))
           (mkRow y2 (- z2) (c2 (r2 old)) x2)
           (mkRow z2 y2 (- x2) (c3 (r3 old))).


(** What [predict] and [update] write: the transition matrix, the state
    quaternion, the error and the rotation scratch members; every other
    member passes through. *)
Definition same_bookkeeping (a b : St) : Prop :=
  m_debug a = m_debug b /\ m_enableGyro a = m_enableGyro b /\
  m_enableAccel a = m_enableAccel b /\
  m_enableCompass a = m_enableCompass b /\
  m_compassValid a = m_compassValid b /\ m_firstTime a = m_firstTime b /\
  m_lastFusionTime a = m_lastFusionTime b /\
  m_sampleNumber a = m_sampleNumber b /\ m_timeDelta a = m_timeDelta b /\
  m_Q a = m_Q b /\ m_R a = m_R b /\ m_slerpPower a = m_slerpPower b /\
  m_gyro a = m_gyro b /\ m_accel a = m_accel b /\
  m_compass a = m_compass b /\ m_measuredPose a = m_measuredPose b /\
  m_measuredQPose a = m_measuredQPose b /\
  m_fusionPose a = m_fusionPose b /\ m_fusionQPose a = m_fusionQPose b.
End RTFusionRTQF.

(** ** Three arithmetics *)

(** Exact arithmetic: [RTFLOAT] read as the real numbers. *)
Definition Rleb (x y : R) : bool := if Rle_dec x y then true else false.

(** Modelled from the spec: with the timestamps "integer microseconds"
    (section 6), the difference of two timestamps is the integer
    difference. *)
Definition R_ticks (a b : Z) : R := IZR (a - b).

#[export] Instance R_RTFloat : RTFloat R := {|
  fadd := Rplus;
  fsub := Rminus;
  fmul := Rmult;
  fdiv := Rdiv;
  fneg := Ropp;
  fsqrt := R_sqrt.sqrt;
  fle := Rleb;
  of_Z := IZR;
  fticks := R_ticks
|}.

#[export] Instance R_RTLibm : RTLibm R := {|
  fsin := sin;
  fcos := cos;
  facos := acos
|}.

(** Machine arithmetic: [RTFLOAT] read as IEEE binary64, every operation
    rounded to nearest, an integer converted by rounding it to the nearest
    binary64 value.  The math library calls have no counterpart here, so
    what is said in this arithmetic is said for every math library, or
    for every one that answers [cos 0 = 1] and [sin 0 = 0] where the first
    sample is run. *)
Definition b64_of_Z (z : Z) : float :=
  SF2Prim (binary_normalize prec emax z 0 false).

#[export] Instance b64_RTFloat : RTFloat float := {|
  fadd := PrimFloat.add;
  fsub := PrimFloat.sub;
  fmul := PrimFloat.mul;
  fdiv := PrimFloat.div;
  fneg := PrimFloat.opp;
  fsqrt := PrimFloat.sqrt;
  fle := PrimFloat.leb;
  of_Z := b64_of_Z;
  fticks := fun a b => b64_of_Z (a - b)
|}.

(** Machine arithmetic in single precision: [RTFLOAT] read as IEEE
    binary32, with the operations of the library's specification of
    floating-point numbers at precision 24 and maximal exponent 128, every
    operation rounded to nearest. *)
Definition b32_of_Z (z : Z) : spec_float :=
  binary_normalize 24 128 z 0 false.

#[export] Instance b32_RTFloat : RTFloat spec_float := {|
  fadd := SFadd 24 128;
  fsub := SFsub 24 128;
  fmul := SFmul 24 128;
  fdiv := SFdiv 24 128;
  fneg := SFopp;
  fsqrt := SFsqrt 24 128;
  fle := SFleb;
  of_Z := b32_of_Z;
  fticks := fun a b => b32_of_Z (a - b)
|}.

(** ** Sample objects

    Concrete objects and samples on which the statements below are run.  The
    two parameters of the development are given stand-ins there:
    [heading_pose] for [calculatePose] (a level pose whose quaternion is
    read off the compass vector) and [no_euler] for [toEuler]. *)

Definition vzero : RTVector3 R := mkVector3 0%R 0%R 0%R.

Definition qzero : RTQuaternion R := mkQuaternion 0%R 0%R 0%R 0%R.

Definition qone : RTQuaternion R := mkQuaternion 1%R 0%R 0%R 0%R.

Definition north : RTVector3 R := mkVector3 1%R 0%R 0%R.

Definition heading_pose (_ _ _ : bool) (_ : RTVector3 R) (_ : RTQuaternion R)
           (_ mag : RTVector3 R) (_ : R) : RTVector3 R * RTQuaternion R :=
  (vzero, mkQuaternion (vx mag) (vy mag) 0%R 0%R).

Definition no_euler (_ : RTQuaternion R) : RTVector3 R := vzero.

Definition no_declination : RTIMUSettings R :=
  {| m_compassAdjDeclination := 0%R |}.

(** A sample stamped [ts] with gyro [gyr] and compass [mag], the
    accelerometer reading one g along z. *)
Definition sample (ts : Z) (gyr mag : RTVector3 R) : RTIMU_DATA R :=
  {| timestamp := ts;
     fusionPoseValid := false;
     fusionPose := vzero;
     fusionQPoseValid := false;
     fusionQPose := qzero;
     gyro := gyr;
     accel := mkVector3 0%R 0%R 1%R;
     compass := mag;
     compassValid := true |}.

(** The object before its first sample, with the gains the constructor
    stores in either build. *)
Definition fresh_state : RTFusionRTQF R :=
  {| m_debug := false;
     m_enableGyro := true;
     m_enableAccel := true;
     m_enableCompass := true;
     m_compassValid := false;
     m_firstTime := true;
     m_lastFusionTime := 0;
     m_sampleNumber := 0;
     m_timeDelta := 0%R;
     m_Q := (8589935 / 8589934592)%R;
     m_R := (8589935 / 17179869184)%R;
     m_slerpPower := (5764607523034235 / 288230376151711744)%R;
     m_gyro := vzero;
     m_accel := vzero;
     m_compass := vzero;
     m_measuredPose := vzero;
     m_measuredQPose := qone;
     m_fusionPose := vzero;
     m_fusionQPose := qone;
     m_stateQ := qzero;
     m_stateQError := qzero;
     m_Fk := fill 0%R;
     m_rotationDelta := qzero;
     m_rotationPower := qzero;
     m_rotationUnitVector := vzero |}.

(** The first sample: stamped 0, at rest, compass to the north. *)
Definition first_sample : RTIMU_DATA R := sample 0 vzero north.

(** The object after the first sample: identity state, zero transition
    matrix, time base 0, one sample counted. *)
Definition rest_state : RTFusionRTQF R :=
  {| m_debug := false;
     m_enableGyro := true;
     m_enableAccel := true;
     m_enableCompass := true;
     m_compassValid := true;
     m_firstTime := false;
     m_lastFusionTime := 0;
     m_sampleNumber := 1;
     m_timeDelta := 0%R;
     m_Q := (8589935 / 8589934592)%R;
     m_R := (8589935 / 17179869184)%R;
     m_slerpPower := (5764607523034235 / 288230376151711744)%R;
     m_gyro := vzero;
     m_accel := mkVector3 0%R 0%R 1%R;
     m_compass := north;
     m_measuredPose := vzero;
     m_measuredQPose := qone;
     m_fusionPose := vzero;
     m_fusionQPose := qone;
     m_stateQ := qone;
     m_stateQError := qzero;
     m_Fk := fill 0%R;
     m_rotationDelta := qzero;
     m_rotationPower := qzero;
     m_rotationUnitVector := vzero |}.

(** A second sample with the timestamp of the first. *)
Definition repeated_sample : RTIMU_DATA R :=
  sample 0 (mkVector3 3%R 0%R 0%R) north.

(** A sample half a second later, at rest, the compass a half-turn about x
    away from the state. *)
Definition turned_sample : RTIMU_DATA R :=
  sample 500000 vzero (mkVector3 0%R 1%R 0%R).

(** A sample half a second later, at rest, whose compass reading gives the
    measured quaternion (-1, 0, 0, 0), opposite to the identity state. *)
Definition opposed_sample : RTIMU_DATA R :=
  sample 500000 vzero (mkVector3 (-1)%R 0%R 0%R).

(** *** The sample objects in any arithmetic

    The same stand-ins, objects and samples, written with the conversions
    of the arithmetic instead of real literals, so that one input can be
    run in exact and in machine arithmetic. *)

Section AnyArithmetic.
Context {F : Type} {RF : RTFloat F}.

Definition heading_pose_in (_ _ _ : bool) (_ : RTVector3 F)
           (_ : RTQuaternion F) (_ mag : RTVector3 F) (_ : F)
  : RTVector3 F * RTQuaternion F :=
  (RTVector3_zero, mkQuaternion (vx mag) (vy mag) (of_Z 0) (of_Z 0)).

Definition no_euler_in (_ : RTQuaternion F) : RTVector3 F := RTVector3_zero.

Definition no_declination_in : RTIMUSettings F :=
  {| m_compassAdjDeclination := of_Z 0 |}.

Definition sample_in (ts : Z) (gyr mag : RTVector3 F) : RTIMU_DATA F :=
  {| timestamp := ts;
     fusionPoseValid := false;
     fusionPose := RTVector3_zero;
     fusionQPoseValid := false;
     fusionQPose := RTQuaternion_zero;
     gyro := gyr;
     accel := mkVector3 (of_Z 0) (of_Z 0) (of_Z 1);
     compass := mag;
     compassValid := true |}.

Definition north_in : RTVector3 F := mkVector3 (of_Z 1) (of_Z 0) (of_Z 0).

Definition qone_in : RTQuaternion F :=
  mkQuaternion (of_Z 1) (of_Z 0) (of_Z 0) (of_Z 0).

(** [fresh_state] in any arithmetic. *)
Definition fresh_state_in : RTFusionRTQF F :=
  {| m_debug := false;
     m_enableGyro := true;
     m_enableAccel := true;
     m_enableCompass := true;
     m_compassValid := false;
     m_firstTime := true;
     m_lastFusionTime := 0;
     m_sampleNumber := 0;
     m_timeDelta := of_Z 0;
     m_Q := RTQF_QVALUE;
     m_R := RTQF_RVALUE;
     m_slerpPower := RTQF_SLERP_POWER;
     m_gyro := RTVector3_zero;
     m_accel := RTVector3_zero;
     m_compass := RTVector3_zero;
     m_measuredPose := RTVector3_zero;
     m_measuredQPose := qone_in;
     m_fusionPose := RTVector3_zero;
     m_fusionQPose := qone_in;
     m_stateQ := RTQuaternion_zero;
     m_stateQError := RTQuaternion_zero;
     m_Fk := fill (of_Z 0);
     m_rotationDelta := RTQuaternion_zero;
     m_rotationPower := RTQuaternion_zero;
     m_rotationUnitVector := RTVector3_zero |}.

(** [first_sample] in any arithmetic. *)
Definition first_sample_in : RTIMU_DATA F :=
  sample_in 0 RTVector3_zero north_in.

(** [rest_state] in any arithmetic. *)
Definition rest_state_in : RTFusionRTQF F :=
  {| m_debug := false;
     m_enableGyro := true;
     m_enableAccel := true;
     m_enableCompass := true;
     m_compassValid := true;
     m_firstTime := false;
     m_lastFusionTime := 0;
     m_sampleNumber := 1;
     m_timeDelta := of_Z 0;
     m_Q := RTQF_QVALUE;
     m_R := RTQF_RVALUE;
     m_slerpPower := RTQF_SLERP_POWER;
     m_gyro := RTVector3_zero;
     m_accel := mkVector3 (of_Z 0) (of_Z 0) (of_Z 1);
     m_compass := north_in;
     m_measuredPose := RTVector3_zero;
     m_measuredQPose := qone_in;
     m_fusionPose := RTVector3_zero;
     m_fusionQPose := qone_in;
     m_stateQ := qone_in;
     m_stateQError := RTQuaternion_zero;
     m_Fk := fill (of_Z 0);
     m_rotationDelta := RTQuaternion_zero;
     m_rotationPower := RTQuaternion_zero;
     m_rotationUnitVector := RTVector3_zero |}.

(** [opposed_sample] in any arithmetic.  Every number in it is a value of
    single and of double precision. *)
Definition opposed_sample_in : RTIMU_DATA F :=
  sample_in 500000 RTVector3_zero
            (mkVector3 (of_Z (-1)) (of_Z 0) (of_Z 0)).
End AnyArithmetic.



(** A sample one second after the time base whose gyro rate about x is
    2^[e] rad/s. *)
Definition spinning_sample {F : Type} {RF : RTFloat F} (e : Z)
  : RTIMU_DATA F :=
  sample_in 1000000 (mkVector3 (of_Z (2 ^ e)) (of_Z 0) (of_Z 0)) north_in.

(** ** Streams of samples and further descriptions *)

Section Streams.
Context {F : Type} {RF : RTFloat F} {RL : RTLibm F}.
Local Open Scope rt_scope.

(** The caller's loop: one [newIMUData] per sample, on the same object and
    with the same settings, the records handed back being dropped. *)
Definition feed (USE_SLERP : bool)
           (calculatePose :
              bool -> bool -> bool -> RTVector3 F -> RTQuaternion F ->
              RTVector3 F -> RTVector3 F -> F ->
              RTVector3 F * RTQuaternion F)
           (toEuler : RTQuaternion F -> RTVector3 F)
           (settings : RTIMUSettings F)
           (s : RTFusionRTQF F) (samples : list (RTIMU_DATA F))
  : RTFusionRTQF F :=
  fold_left
    (fun s data =>
       state_after (newIMUData USE_SLERP calculatePose toEuler s data
                               settings))
    samples s.

(** The four entries of [m_Fk] that [predict] never writes are zero. *)
Definition diagonal_zero (m : RTMatrix4x4 F) : Prop :=
  val 0 0 m = of_Z 0 /\ val 1 1 m = of_Z 0 /\
  val 2 2 m = of_Z 0 /\ val 3 3 m = of_Z 0.

(** The members that configure the filter: the debug and enable flags and
    the gains. *)
Definition same_configuration (a b : RTFusionRTQF F) : Prop :=
  m_debug a = m_debug b /\ m_enableGyro a = m_enableGyro b /\
  m_enableAccel a = m_enableAccel b /\
  m_enableCompass a = m_enableCompass b /\
  m_Q a = m_Q b /\ m_R a = m_R b /\ m_slerpPower a = m_slerpPower b.
End Streams.

(** The squared length of a gyro vector, in exact arithmetic. *)
Definition rate2 (w : RTVector3 R) : R :=
  (vx w * vx w + vy w * vy w + vz w * vz w)%R.

(** Samples at rest with the compass to the north, 10 ms apart. *)
Definition rest_stream : list (RTIMU_DATA R) :=
  [sample 10000 vzero north; sample 20000 vzero north;
   sample 30000 vzero north].

(** Samples turning at 1 rad/s about x, 10 ms apart, the first one a repeat
    of the time base. *)
Definition turning_stream : list (RTIMU_DATA R) :=
  [sample 0 (mkVector3 1%R 0%R 0%R) north;
   sample 10000 (mkVector3 1%R 0%R 0%R) north;
   sample 20000 (mkVector3 1%R 0%R 0%R) north].

(** ** Properties that hold in every arithmetic *)

Unset Implicit Arguments.

(** Opening an object into its members. *)
Ltac open_state s :=
  destruct s as [dbg eG eA eC cV fT lastT num dT Q R0 pw gy ac co mP mQ fP fQ
                 sQ sE Fk rD rP rU];
  cbn [m_debug m_enableGyro m_enableAccel m_enableCompass m_compassValid
       m_firstTime m_lastFusionTime m_sampleNumber m_timeDelta m_Q m_R
       m_slerpPower m_gyro m_accel m_compass m_measuredPose m_measuredQPose
       m_fusionPose m_fusionQPose m_stateQ m_stateQError m_Fk
       m_rotationDelta m_rotationPower m_rotationUnitVector] in *.

(** Running the assignments to members, and nothing else. *)
Ltac members :=
  cbv beta iota zeta delta
      [set_m_debug set_m_enableGyro set_m_enableAccel set_m_enableCompass
       set_m_compassValid set_m_firstTime set_m_lastFusionTime
       set_m_sampleNumber set_m_timeDelta set_m_Q set_m_R set_m_slerpPower
       set_m_gyro set_m_accel set_m_compass set_m_measuredPose
       set_m_measuredQPose set_m_fusionPose set_m_fusionQPose set_m_stateQ
       set_m_stateQError set_m_Fk set_m_rotationDelta set_m_rotationPower
       set_m_rotationUnitVector
       m_debug m_enableGyro m_enableAccel m_enableCompass m_compassValid
       m_firstTime m_lastFusionTime m_sampleNumber m_timeDelta m_Q m_R
       m_slerpPower m_gyro m_accel m_compass m_measuredPose m_measuredQPose
       m_fusionPose m_fusionQPose m_stateQ m_stateQError m_Fk
       m_rotationDelta m_rotationPower m_rotationUnitVector
       fst snd state_after data_after log_of bookkeeping accepted_input
       do_calculatePose timeDelta_of].

(** Reading the operations of the exact arithmetic. *)
Ltac rt_unfold :=
  cbn [fadd fsub fmul fdiv fneg fsqrt fle of_Z fticks fsin fcos facos
       R_RTFloat R_RTLibm scalar qx qy qz vx vy vz] in *.

Section Control.
Context {F : Type} {RF : RTFloat F} {RL : RTLibm F}.
Local Open Scope rt_scope.

Variable USE_SLERP : bool.
Variable calculatePose :
  bool -> bool -> bool -> RTVector3 F -> RTQuaternion F ->
  RTVector3 F -> RTVector3 F -> F -> RTVector3 F * RTQuaternion F.
Variable toEuler : RTQuaternion F -> RTVector3 F.

Local Abbreviation St := (RTFusionRTQF F).
Local Abbreviation ingest := (newIMUData USE_SLERP calculatePose toEuler).

Lemma predict_unfold (s : St) :
  predict s =
  set_m_stateQ
    (qadd (m_stateQ s)
          (qscale (mat_mul_quat (Fk_of (m_gyro s) (m_Fk s)) (m_stateQ s))
                  (m_timeDelta s)))
    (set_m_Fk (Fk_of (m_gyro s) (m_Fk s)) s).
Proof.
  destruct s as [? ? ? ? ? ? ? ? ? ? ? ? ? ? ? ? ? ? ? ? ? Fk ? ? ?].
  destruct Fk as [[? ? ? ?] [? ? ? ?] [? ? ? ?] [? ? ? ?]].
  reflexivity.
Qed.

(** C3.  [predict] writes half of each gyro component, with the signs of
    the quaternion-derivative pattern, into the twelve off-diagonal
    entries of [m_Fk] and leaves the diagonal alone; it then replaces
    [m_stateQ] by [m_stateQ + (m_Fk * m_stateQ) * m_timeDelta], the sum
    itself and not a normalization of it; no other member changes. *)
Theorem predict_transition_and_integration (s : St) :
  let x2 := vx (m_gyro s) / of_Z 2 in
  let y2 := vy (m_gyro s) / of_Z 2 in
  let z2 := vz (m_gyro s) / of_Z 2 in
  let Fk := m_Fk (predict s) in
  (val 0 1 Fk = - x2 /\ val 0 2 Fk = - y2 /\ val 0 3 Fk = - z2) /\
  (val 1 0 Fk = x2 /\ val 1 2 Fk = z2 /\ val 1 3 Fk = - y2) /\
  (val 2 0 Fk = y2 /\ val 2 1 Fk = - z2 /\ val 2 3 Fk = x2) /\
  (val 3 0 Fk = z2 /\ val 3 1 Fk = y2 /\ val 3 2 Fk = - x2) /\
  (val 0 0 Fk = val 0 0 (m_Fk s) /\ val 1 1 Fk = val 1 1 (m_Fk s) /\
   val 2 2 Fk = val 2 2 (m_Fk s) /\ val 3 3 Fk = val 3 3 (m_Fk s)) /\
  m_stateQ (predict s) =
    qadd (m_stateQ s)
         (qscale (mat_mul_quat Fk (m_stateQ s)) (m_timeDelta s)) /\
  predict s = set_m_stateQ (m_stateQ (predict s)) (set_m_Fk Fk s).
Proof.
  intros x2 y2 z2 Fk. subst Fk x2 y2 z2.
  rewrite predict_unfold.
  destruct s as [? ? ? ? ? ? ? ? ? ? ? ? ? ? ? ? ? ? ? ? ? Fk ? ? ?].
  destruct Fk as [[? ? ? ?] [? ? ? ?] [? ? ? ?] [? ? ? ?]].
  cbn. repeat split.
Qed.

(** The first call, member by member. *)
Lemma newIMUData_first_unfold (s : St) data settings :
  m_firstTime s = true ->
  let b := bookkeeping s data in
  let measured :=
    calculatePose (m_enableAccel s) (m_enableCompass s) (compassValid data)
                  (m_fusionPose s) (m_fusionQPose s) (accel data)
                  (compass data) (m_compassAdjDeclination settings) in
  let q := fromEuler (fst measured) in
  state_after (ingest s data settings) =
    set_m_firstTime false
      (set_m_fusionPose (fst measured)
         (set_m_fusionQPose q
            (set_m_stateQ q
               (set_m_Fk (fill (of_Z 0))
                  (set_m_measuredQPose (snd measured)
                     (set_m_measuredPose (fst measured)
                        (set_m_lastFusionTime (timestamp data) b))))))) /\
  data_after (ingest s data settings) = set_fusion (fst measured) q data.
Proof.
  intros HfT. open_state s. subst fT.
  unfold newIMUData.
  destruct dbg, eG; members; rewrite <- ?Z.add_assoc; split; reflexivity.
Qed.

(** C6.  On the first call ([m_firstTime] set) the filter records the
    timestamp as the time base, zeroes [m_Fk], takes the measured pose
    that [calculatePose] computes from this call's accel, compass and
    declination, sets [m_stateQ] from that pose with [fromEuler], and
    publishes [m_fusionPose] equal to the measured pose and
    [m_fusionQPose] equal to [m_stateQ]; [m_timeDelta], [m_stateQError]
    and the rotation scratch members are as before the call, neither
    [predict] nor [update] having run; both validity flags of the caller's
    record are set and its fusion fields carry the published values. *)
Theorem newIMUData_first_sample (s : St) data settings :
  m_firstTime s = true ->
  let r := ingest s data settings in
  let s' := state_after r in
  let measured :=
    calculatePose (m_enableAccel s) (m_enableCompass s) (compassValid data)
                  (m_fusionPose s) (m_fusionQPose s) (accel data)
                  (compass data) (m_compassAdjDeclination settings) in
  m_lastFusionTime s' = timestamp data /\
  m_Fk s' = fill (of_Z 0) /\
  m_measuredPose s' = fst measured /\
  m_measuredQPose s' = snd measured /\
  m_stateQ s' = fromEuler (m_measuredPose s') /\
  m_fusionPose s' = m_measuredPose s' /\
  m_fusionQPose s' = m_stateQ s' /\
  m_firstTime s' = false /\
  (m_timeDelta s' = m_timeDelta s /\
   m_stateQError s' = m_stateQError s /\
   m_rotationDelta s' = m_rotationDelta s /\
   m_rotationPower s' = m_rotationPower s /\
   m_rotationUnitVector s' = m_rotationUnitVector s) /\
  fusionPoseValid (data_after r) = true /\
  fusionQPoseValid (data_after r) = true /\
  fusionPose (data_after r) = m_fusionPose s' /\
  fusionQPose (data_after r) = m_fusionQPose s'.
Proof.
  intros HfT r s' measured.
  destruct (newIMUData_first_unfold s data settings HfT) as [Hs Hd].
  subst s' r. rewrite Hs, Hd. clear Hs Hd.
  open_state s. unfold bookkeeping. subst measured. cbn.
  repeat split.
Qed.


(** *** The steps of [update], member by member *)

(** [update] is the correction followed by the normalization. *)
Lemma update_unfold (s : St) :
  update USE_SLERP s =
  set_m_stateQ (qnormalize (m_stateQ (update_correction USE_SLERP s)))
               (update_correction USE_SLERP s).
Proof. reflexivity. Qed.

Lemma update_stateQ (s : St) :
  m_stateQ (update USE_SLERP s) =
  qnormalize (m_stateQ (update_correction USE_SLERP s)).
Proof.
  unfold update. destruct (update_correction USE_SLERP s). reflexivity.
Qed.

(** The slerp branch with a source enabled. *)
Lemma update_slerp_enabled (s : St) :
  (m_enableCompass s || m_enableAccel s) = true ->
  let rd := slerp_rotationDelta s in
  let rp := rotationPower_of rd (m_slerpPower s) in
  update_slerp s =
  set_m_stateQ (qmul (m_stateQ s) rp)
    (set_m_rotationPower rp
       (set_m_rotationUnitVector
          (vnormalize (mkVector3 (qx rd) (qy rd) (qz rd)))
          (set_m_rotationDelta rd s))).
Proof.
  intros Hen. open_state s. unfold update_slerp.
  cbn [m_enableCompass m_enableAccel]. rewrite Hen. reflexivity.
Qed.

Lemma update_slerp_unfold (s : St) :
  (m_enableCompass s || m_enableAccel s) = true ->
  let rd := slerp_rotationDelta s in
  m_rotationDelta (update_slerp s) = rd /\
  m_rotationPower (update_slerp s) = rotationPower_of rd (m_slerpPower s) /\
  m_stateQ (update_slerp s) =
    qmul (m_stateQ s) (rotationPower_of rd (m_slerpPower s)).
Proof.
  intros Hen rd. rewrite (update_slerp_enabled s Hen).
  destruct s. repeat split.
Qed.

(** The slerp branch with both sources disabled. *)
Lemma update_slerp_disabled (s : St) :
  (m_enableCompass s || m_enableAccel s) = false ->
  update_slerp s = s.
Proof.
  intros Hen. unfold update_slerp. rewrite Hen. reflexivity.
Qed.

(** The linear branch. *)
Lemma update_linear_unfold (s : St) :
  let e := if m_enableCompass s || m_enableAccel s
           then qsub (m_measuredQPose s) (m_stateQ s)
           else RTQuaternion_zero in
  let qt := m_Q s * m_timeDelta s in
  update_linear s =
  set_m_stateQ (qadd (m_stateQ s) (qscale e (qt / (qt + m_R s))))
               (set_m_stateQError e s).
Proof.
  open_state s. unfold update_linear.
  cbn [m_enableCompass m_enableAccel]. destruct (eC || eA); reflexivity.
Qed.

Lemma predict_frame (s : St) : same_bookkeeping (predict s) s.
Proof.
  rewrite predict_unfold. destruct s. unfold same_bookkeeping.
  cbn. repeat split.
Qed.

Lemma update_correction_frame (s : St) :
  same_bookkeeping (update_correction USE_SLERP s) s.
Proof.
  unfold update_correction. destruct USE_SLERP.
  - destruct (m_enableCompass s || m_enableAccel s) eqn:Hen.
    + rewrite (update_slerp_enabled s Hen). destruct s.
      unfold same_bookkeeping. cbn. repeat split.
    + rewrite (update_slerp_disabled s Hen). unfold same_bookkeeping.
      repeat split.
  - rewrite update_linear_unfold. destruct s. unfold same_bookkeeping.
    cbn. repeat split.
Qed.

Lemma update_frame (s : St) : same_bookkeeping (update USE_SLERP s) s.
Proof.
  rewrite update_unfold.
  pose proof (update_correction_frame s) as H.
  destruct (update_correction USE_SLERP s). exact H.
Qed.

(** *** The three ways through [newIMUData] *)

(** A discarded sample, member by member. *)
Lemma newIMUData_discard_unfold (s : St) data settings :
  m_firstTime s = false ->
  (timeDelta_of (timestamp data) s <=? of_Z 0) = true ->
  state_after (ingest s data settings) =
    set_m_lastFusionTime (timestamp data)
      (set_m_timeDelta (timeDelta_of (timestamp data) s)
         (bookkeeping s data)) /\
  data_after (ingest s data settings) = data.
Proof.
  intros HfT Hle. open_state s. subst fT. unfold newIMUData.
  unfold timeDelta_of in Hle. cbn [m_lastFusionTime] in Hle.
  destruct dbg, eG; members; rewrite Hle; members;
    rewrite <- ?Z.add_assoc; split; reflexivity.
Qed.

(** A sample that is kept, as the composition of the steps. *)
Lemma newIMUData_accept_unfold (s : St) data settings :
  m_firstTime s = false ->
  (timeDelta_of (timestamp data) s <=? of_Z 0) = false ->
  let u := update USE_SLERP
                  (predict (accepted_input calculatePose s data settings)) in
  state_after (ingest s data settings) =
    set_m_fusionQPose (m_stateQ u) (set_m_fusionPose (toEuler (m_stateQ u)) u)
  /\ data_after (ingest s data settings) =
     set_fusion (toEuler (m_stateQ u)) (m_stateQ u) data.
Proof.
  intros HfT Hle. open_state s. subst fT. unfold newIMUData.
  unfold timeDelta_of in Hle. cbn [m_lastFusionTime] in Hle.
  destruct dbg, eG; members; rewrite Hle; members;
    rewrite <- ?Z.add_assoc; change (1 + 1)%Z with 2%Z;
    match goal with
    | |- context [update USE_SLERP ?x] =>
        destruct (update USE_SLERP x); split; reflexivity
    end.
Qed.

(** The members a kept sample leaves as [predict] found them. *)
Lemma newIMUData_accept_frame (s : St) data settings :
  m_firstTime s = false ->
  (timeDelta_of (timestamp data) s <=? of_Z 0) = false ->
  let s' := state_after (ingest s data settings) in
  let a := accepted_input calculatePose s data settings in
  m_timeDelta s' = m_timeDelta a /\ m_sampleNumber s' = m_sampleNumber a /\
  m_firstTime s' = m_firstTime a /\
  m_lastFusionTime s' = m_lastFusionTime a /\
  m_measuredPose s' = m_measuredPose a /\
  m_measuredQPose s' = m_measuredQPose a.
Proof.
  intros HfT Hle s' a.
  destruct (newIMUData_accept_unfold s data settings HfT Hle) as [Hs _].
  subst s'. rewrite Hs. clear Hs. fold a.
  pose proof (update_frame (predict a)) as Hu.
  pose proof (predict_frame a) as Hp.
  unfold same_bookkeeping in Hu, Hp.
  destruct (update USE_SLERP (predict a)), (predict a), a.
  members. cbn in Hu, Hp.
  repeat match goal with H : _ /\ _ |- _ => destruct H end.
  subst. repeat split.
Qed.

(** A call other than the first always gives [m_timeDelta] the value
    computed from its timestamp, whether the sample is then kept or not. *)
Lemma newIMUData_timeDelta (s : St) data settings :
  m_firstTime s = false ->
  m_timeDelta (state_after (ingest s data settings)) =
  timeDelta_of (timestamp data) s.
Proof.
  intros HfT.
  destruct (timeDelta_of (timestamp data) s <=? of_Z 0) eqn:Hle.
  - destruct (newIMUData_discard_unfold s data settings HfT Hle) as [Hs _].
    rewrite Hs. destruct s. reflexivity.
  - destruct (newIMUData_accept_frame s data settings HfT Hle) as [Ht _].
    rewrite Ht. destruct s. reflexivity.
Qed.

(** The sample counter after one call: one step, and one more when
    [m_debug] is set. *)
Lemma newIMUData_sampleNumber (s : St) data settings :
  m_sampleNumber (state_after (ingest s data settings)) =
  (m_sampleNumber s + (if m_debug s then 2 else 1))%Z.
Proof.
  destruct (m_firstTime s) eqn:HfT.
  - destruct (newIMUData_first_unfold s data settings HfT) as [Hs _].
    rewrite Hs. destruct s. reflexivity.
  - destruct (timeDelta_of (timestamp data) s <=? of_Z 0) eqn:Hle.
    + destruct (newIMUData_discard_unfold s data settings HfT Hle)
        as [Hs _].
      rewrite Hs. destruct s. reflexivity.
    + destruct (newIMUData_accept_frame s data settings HfT Hle)
        as (_ & Hn & _).
      rewrite Hn. destruct s. reflexivity.
Qed.

(** C1 (as the code has it).  A sample other than the first whose
    computed [m_timeDelta] is not positive is dropped before any pose is
    computed: the caller's record is returned as it came, and [m_stateQ],
    [m_stateQError], [m_Fk], the measured and fusion poses, the rotation
    scratch members, [m_firstTime], the gains and the enable flags keep
    their values.  The call does write the bookkeeping members: the
    sample counter, the stored gyro, accel, compass and compass validity,
    [m_timeDelta] and [m_lastFusionTime]. *)
Theorem newIMUData_discard_keeps_orientation (s : St) data settings :
  m_firstTime s = false ->
  (timeDelta_of (timestamp data) s <=? of_Z 0) = true ->
  let r := ingest s data settings in
  let s' := state_after r in
  data_after r = data /\
  (m_stateQ s' = m_stateQ s /\ m_stateQError s' = m_stateQError s /\
   m_Fk s' = m_Fk s) /\
  (m_measuredPose s' = m_measuredPose s /\
   m_measuredQPose s' = m_measuredQPose s /\
   m_fusionPose s' = m_fusionPose s /\
   m_fusionQPose s' = m_fusionQPose s) /\
  (m_rotationDelta s' = m_rotationDelta s /\
   m_rotationPower s' = m_rotationPower s /\
   m_rotationUnitVector s' = m_rotationUnitVector s) /\
  (m_firstTime s' = false /\ m_Q s' = m_Q s /\ m_R s' = m_R s /\
   m_slerpPower s' = m_slerpPower s /\ m_debug s' = m_debug s /\
   m_enableGyro s' = m_enableGyro s /\ m_enableAccel s' = m_enableAccel s /\
   m_enableCompass s' = m_enableCompass s) /\
  s' = set_m_lastFusionTime (timestamp data)
         (set_m_timeDelta (timeDelta_of (timestamp data) s)
            (set_m_compassValid (compassValid data)
               (set_m_compass (compass data)
                  (set_m_accel (accel data)
                     (set_m_gyro (if m_enableGyro s then gyro data
                                  else RTVector3_zero)
                        (set_m_sampleNumber
                           (m_sampleNumber s
                            + (if m_debug s then 2 else 1))%Z s)))))).
Proof.
  intros HfT Hle r s'.
  destruct (newIMUData_discard_unfold s data settings HfT Hle) as [Hs Hd].
  subst s' r. rewrite Hs, Hd. clear Hs Hd Hle.
  open_state s. subst fT. members. repeat split.
Qed.

(** C10.  A sample other than the first that is rejected because its
    [m_timeDelta] is not positive has by then overwritten the stored gyro
    (with zero when the gyro is disabled), accel, compass and compass
    validity, advanced the sample counter (by one, by two when [m_debug]
    is set) and moved [m_lastFusionTime] to its own timestamp, so that the
    [m_timeDelta] of whatever sample comes next is measured from the
    rejected sample's timestamp.  [m_stateQ], the fusion and measured
    poses and the caller's record are as before the call. *)
Theorem newIMUData_discard_bookkeeping (s : St) data settings :
  m_firstTime s = false ->
  (timeDelta_of (timestamp data) s <=? of_Z 0) = true ->
  let r := ingest s data settings in
  let s' := state_after r in
  (m_gyro s' = (if m_enableGyro s then gyro data else RTVector3_zero) /\
   m_accel s' = accel data /\
   m_compass s' = compass data /\
   m_compassValid s' = compassValid data) /\
  m_sampleNumber s' = (m_sampleNumber s + (if m_debug s then 2 else 1))%Z /\
  m_lastFusionTime s' = timestamp data /\
  (forall next settings',
      m_timeDelta (state_after (ingest s' next settings')) =
      fticks (timestamp next) (timestamp data) / of_Z 1000000) /\
  (m_stateQ s' = m_stateQ s /\
   m_fusionPose s' = m_fusionPose s /\
   m_fusionQPose s' = m_fusionQPose s /\
   m_measuredPose s' = m_measuredPose s /\
   m_measuredQPose s' = m_measuredQPose s) /\
  data_after r = data.
Proof.
  intros HfT Hle r s'.
  destruct (newIMUData_discard_unfold s data settings HfT Hle) as [Hs Hd].
  assert (HfT' : m_firstTime s' = false).
  { subst s' r. rewrite Hs. open_state s. subst fT. reflexivity. }
  assert (HlT : m_lastFusionTime s' = timestamp data).
  { subst s' r. rewrite Hs. open_state s. reflexivity. }
  split; [|split; [|split; [|split; [|split]]]].
  - subst s' r. rewrite Hs. open_state s. members. repeat split.
  - subst s' r. rewrite Hs. open_state s. reflexivity.
  - exact HlT.
  - intros next settings'.
    rewrite (newIMUData_timeDelta s' next settings' HfT').
    unfold timeDelta_of. rewrite HlT. reflexivity.
  - subst s' r. rewrite Hs. open_state s. members. repeat split.
  - subst r. exact Hd.
Qed.

(** C8 (what the code does).  From one and the same object, the call made
    with [m_debug] set leaves the sample counter two above its old value,
    the call made with [m_debug] clear leaves it one above: the
    [m_sampleNumber++] written as an argument of the trace macro is a
    second increment. *)
Theorem newIMUData_debug_counts_twice (s : St) data settings :
  m_sampleNumber
    (state_after (ingest (set_m_debug true s) data settings)) =
    (m_sampleNumber s + 2)%Z /\
  m_sampleNumber
    (state_after (ingest (set_m_debug false s) data settings)) =
    (m_sampleNumber s + 1)%Z /\
  m_sampleNumber
    (state_after (ingest (set_m_debug true s) data settings)) <>
  m_sampleNumber
    (state_after (ingest (set_m_debug false s) data settings)).
Proof.
  rewrite !newIMUData_sampleNumber.
  open_state s. members. repeat split. intro H.
  apply (f_equal (fun z => z - num)%Z) in H.
  rewrite !Z.add_simpl_l in H. discriminate H.
Qed.

(** [predict] and [update] neither read nor write the debug flag and the
    sample counter. *)
Lemma predict_counter (b : bool) (n : Z) (s : St) :
  predict (set_m_debug b (set_m_sampleNumber n s)) =
  set_m_debug b (set_m_sampleNumber n (predict s)).
Proof. rewrite !predict_unfold. destruct s. reflexivity. Qed.

Lemma update_counter (b : bool) (n : Z) (s : St) :
  update USE_SLERP (set_m_debug b (set_m_sampleNumber n s)) =
  set_m_debug b (set_m_sampleNumber n (update USE_SLERP s)).
Proof.
  rewrite !update_unfold. unfold update_correction. destruct USE_SLERP.
  - destruct (m_enableCompass s || m_enableAccel s) eqn:Hen.
    + rewrite (update_slerp_enabled s Hen).
      rewrite update_slerp_enabled by (destruct s; exact Hen).
      destruct s. reflexivity.
    + rewrite (update_slerp_disabled s Hen).
      rewrite update_slerp_disabled by (destruct s; exact Hen).
      destruct s. reflexivity.
  - rewrite !update_linear_unfold. destruct s. reflexivity.
Qed.

(** Apart from the counter (and the flag itself), the object and the
    caller's record do not depend on [m_debug]. *)
Lemma newIMUData_debug_rest (s : St) data settings :
  let on := ingest (set_m_debug true s) data settings in
  let off := ingest (set_m_debug false s) data settings in
  set_m_sampleNumber 0 (set_m_debug false (state_after on)) =
  set_m_sampleNumber 0 (set_m_debug false (state_after off)) /\
  data_after on = data_after off.
Proof.
  intros on off. subst on off.
  assert (Hf : forall b, m_firstTime (set_m_debug b s) = m_firstTime s)
    by (intros b; destruct s; reflexivity).
  assert (Ht : forall b, timeDelta_of (timestamp data) (set_m_debug b s) =
                         timeDelta_of (timestamp data) s)
    by (intros b; destruct s; reflexivity).
  destruct (m_firstTime s) eqn:HfT.
  - destruct (newIMUData_first_unfold (set_m_debug true s) data settings)
      as [H1 D1]; [apply Hf|].
    destruct (newIMUData_first_unfold (set_m_debug false s) data settings)
      as [H0 D0]; [apply Hf|].
    rewrite H1, H0, D1, D0. destruct s. split; reflexivity.
  - destruct (timeDelta_of (timestamp data) s <=? of_Z 0) eqn:Hle.
    + destruct (newIMUData_discard_unfold (set_m_debug true s) data
                  settings) as [H1 D1];
        [apply Hf | rewrite Ht; exact Hle |].
      destruct (newIMUData_discard_unfold (set_m_debug false s) data
                  settings) as [H0 D0];
        [apply Hf | rewrite Ht; exact Hle |].
      rewrite H1, H0, D1, D0. destruct s. split; reflexivity.
    + destruct (newIMUData_accept_unfold (set_m_debug true s) data
                  settings) as [H1 D1];
        [apply Hf | rewrite Ht; exact Hle |].
      destruct (newIMUData_accept_unfold (set_m_debug false s) data
                  settings) as [H0 D0];
        [apply Hf | rewrite Ht; exact Hle |].
      rewrite H1, H0, D1, D0. clear H1 H0 D1 D0.
      assert (Ha : forall b,
                 accepted_input calculatePose (set_m_debug b s) data
                                settings =
                 set_m_debug b
                   (set_m_sampleNumber
                      (m_sampleNumber s + (if b then 2 else 1))%Z
                      (accepted_input calculatePose s data settings)))
        by (intros b; destruct s; reflexivity).
      rewrite !Ha, !predict_counter, !update_counter.
      destruct (update USE_SLERP
                  (predict (accepted_input calculatePose s data settings))).
      split; reflexivity.
Qed.

(** With [m_debug] clear nothing is logged. *)
Lemma newIMUData_quiet (s : St) data settings :
  m_debug s = false -> log_of (ingest s data settings) = [].
Proof.
  intros Hd. open_state s. subst dbg. unfold newIMUData.
  destruct eG, fT; members; try reflexivity;
    destruct (fle _ _); members; try reflexivity;
    match goal with
    | |- context [update USE_SLERP (predict ?x)] =>
        pose proof (update_frame (predict x)) as Hu;
        pose proof (predict_frame x) as Hp;
        destruct (update USE_SLERP (predict x)); destruct (predict x)
    end;
    unfold same_bookkeeping in Hu, Hp; cbn in Hu, Hp;
    destruct Hu as [Hu _]; destruct Hp as [Hp _]; subst; reflexivity.
Qed.

End Control.

(** ** The slerp build on a kept sample, in every arithmetic *)

Section SlerpControl.
Context {F : Type} {RF : RTFloat F} {RL : RTLibm F}.
Local Open Scope rt_scope.

Variable calculatePose :
  bool -> bool -> bool -> RTVector3 F -> RTQuaternion F ->
  RTVector3 F -> RTVector3 F -> F -> RTVector3 F * RTQuaternion F.
Variable toEuler : RTQuaternion F -> RTVector3 F.

Local Abbreviation St := (RTFusionRTQF F).

(** [predict] and the steps before it leave the enable flags and the
    power alone. *)
Lemma predicted_configuration (s : St) data settings :
  let u := predict (accepted_input calculatePose s data settings) in
  m_enableCompass u = m_enableCompass s /\
  m_enableAccel u = m_enableAccel s /\
  m_slerpPower u = m_slerpPower s /\
  m_measuredQPose u =
    m_measuredQPose (accepted_input calculatePose s data settings).
Proof.
  cbv zeta. rewrite predict_unfold. destruct s. repeat split.
Qed.

End SlerpControl.

(** ** Properties in exact arithmetic *)

Section Exact.
Local Open Scope R_scope.
Local Abbreviation Quat := (RTQuaternion R).
Local Abbreviation St := (RTFusionRTQF R).

Lemma Rleb_true (x y : R) : Rleb x y = true <-> x <= y.
Proof.
  unfold Rleb. destruct (Rle_dec x y); split; intros; try easy.
Qed.

Lemma Rleb_false (x y : R) : Rleb x y = false <-> y < x.
Proof.
  unfold Rleb. destruct (Rle_dec x y); split; intros; try easy; lra.
Qed.

(** A sample stamped with the time base itself has [m_timeDelta] zero and
    is rejected. *)
Lemma same_timestamp_rejected (s : St) (ts : Z) :
  ts = m_lastFusionTime s -> (timeDelta_of ts s <=? of_Z 0)%rt = true.
Proof.
  intros Hts. apply Rleb_true. unfold timeDelta_of. rt_unfold.
  unfold R_ticks. rewrite Hts, Z.sub_diag. lra.
Qed.

(** A sample stamped after the time base has a positive [m_timeDelta] and
    is kept. *)
Lemma later_timestamp_accepted (s : St) (ts : Z) :
  (m_lastFusionTime s < ts)%Z -> (timeDelta_of ts s <=? of_Z 0)%rt = false.
Proof.
  intros Hts. apply Rleb_false. unfold timeDelta_of. rt_unfold.
  unfold R_ticks. apply Rdiv_lt_0_compat; [|lra].
  apply IZR_lt. apply Z.lt_0_sub. exact Hts.
Qed.

Lemma qnorm2_nonneg (q : Quat) : 0 <= qnorm2 q.
Proof. destruct q as [w x y z]. unfold qnorm2. rt_unfold. nra. Qed.

Lemma qlength_sqrt (q : Quat) : qlength q = sqrt (qnorm2 q).
Proof. reflexivity. Qed.

Lemma qnorm2_zero (q : Quat) : qnorm2 q = 0 -> q = RTQuaternion_zero.
Proof.
  destruct q as [w x y z]. unfold qnorm2, RTQuaternion_zero. rt_unfold.
  intros H.
  assert (w = 0) by nra. assert (x = 0) by nra.
  assert (y = 0) by nra. assert (z = 0) by nra.
  subst. reflexivity.
Qed.

Lemma qlength_unit (q : Quat) : qlength q = 1 <-> qnorm2 q = 1.
Proof.
  rewrite qlength_sqrt. split; intros H.
  - rewrite <- (sqrt_sqrt (qnorm2 q)) by apply qnorm2_nonneg.
    rewrite H. ring.
  - rewrite H. apply sqrt_1.
Qed.


Lemma qnormalize_scale (q : Quat) : qnormalize q = qscale q (/ qlength q).
Proof. reflexivity. Qed.

Lemma qnorm2_scale (q : Quat) (k : R) :
  qnorm2 (qscale q k) = qnorm2 q * (k * k).
Proof. destruct q. unfold qnorm2, qscale. rt_unfold. ring. Qed.

Lemma qnormalize_zero :
  qnormalize (RTQuaternion_zero (F := R)) = RTQuaternion_zero.
Proof.
  unfold qnormalize, RTQuaternion_zero. rt_unfold.
  unfold Rdiv. rewrite !Rmult_0_l. reflexivity.
Qed.

Lemma qnormalize_unit (q : Quat) : qlength q = 1 -> qnormalize q = q.
Proof.
  intros H. destruct q as [w x y z]. unfold qnormalize. rewrite H.
  rt_unfold. f_equal; field.
Qed.

Lemma qlength_qnormalize (q : Quat) :
  qnorm2 q <> 0 -> qlength (qnormalize q) = 1.
Proof.
  intros Hn. apply qlength_unit.
  rewrite qnormalize_scale, qnorm2_scale, qlength_sqrt.
  pose proof (qnorm2_nonneg q) as Hp.
  assert (Hs : sqrt (qnorm2 q) * sqrt (qnorm2 q) = qnorm2 q)
    by (apply sqrt_sqrt; exact Hp).
  assert (Hz : sqrt (qnorm2 q) <> 0).
  { intro Hz. rewrite Hz in Hs. lra. }
  rewrite <- Hs at 1. field. exact Hz.
Qed.

(** The normalization gives a unit quaternion, except on the zero
    quaternion, which it returns. *)
Lemma qnormalize_unit_or_zero (q : Quat) :
  (q <> RTQuaternion_zero /\ qlength (qnormalize q) = 1) \/
  (q = RTQuaternion_zero /\ qnormalize q = RTQuaternion_zero).
Proof.
  destruct (Req_dec (qnorm2 q) 0) as [Hz | Hn].
  - right. apply qnorm2_zero in Hz. subst q. split; [reflexivity|].
    apply qnormalize_zero.
  - left. split; [|apply qlength_qnormalize; exact Hn].
    intro Hq. subst q. apply Hn.
    unfold qnorm2, RTQuaternion_zero. rt_unfold. ring.
Qed.

Lemma qnormalize_idem (q : Quat) : qnormalize (qnormalize q) = qnormalize q.
Proof.
  destruct (qnormalize_unit_or_zero q) as [[_ H] | [_ H]].
  - apply qnormalize_unit. exact H.
  - rewrite H. apply qnormalize_zero.
Qed.

Lemma fromEuler_unit (v : RTVector3 R) : qlength (fromEuler v) = 1.
Proof.
  unfold fromEuler. apply qlength_qnormalize.
  destruct v as [x y z]. unfold qnorm2. rt_unfold.
  pose proof (sin2_cos2 (x / 2)) as Hx.
  pose proof (sin2_cos2 (y / 2)) as Hy.
  pose proof (sin2_cos2 (z / 2)) as Hz.
  unfold Rsqr in *.
  set (cx := cos (x / 2)) in *. set (sx := sin (x / 2)) in *.
  set (cy := cos (y / 2)) in *. set (sy := sin (y / 2)) in *.
  set (cz := cos (z / 2)) in *. set (sz := sin (z / 2)) in *.
  match goal with |- ?e <> 0 =>
    replace e with ((sx * sx + cx * cx) * (sy * sy + cy * cy)
                    * (sz * sz + cz * cz)) by ring end.
  rewrite Hx, Hy, Hz. lra.
Qed.

Lemma fromEuler_zero : fromEuler (mkVector3 0 0 0) = mkQuaternion 1 0 0 0.
Proof.
  unfold fromEuler. rt_unfold.
  replace (0 / 2) with 0 by field. rewrite cos_0, sin_0.
  replace (mkQuaternion (1 * 1 * 1 + 0 * 0 * 0) (0 * 1 * 1 - 1 * 0 * 0)
                        (1 * 0 * 1 + 0 * 1 * 0) (1 * 1 * 0 - 0 * 0 * 1))
    with (mkQuaternion 1 0 0 0) by (f_equal; ring).
  apply qnormalize_unit. apply qlength_unit.
  unfold qnorm2. rt_unfold. ring.
Qed.

Lemma publish_stateQ (u : St) a b :
  m_stateQ (set_m_fusionQPose a (set_m_fusionPose b u)) = m_stateQ u.
Proof. destruct u. reflexivity. Qed.


Lemma qadd_scale_zero (q e : Quat) : qadd q (qscale e 0) = q.
Proof.
  destruct q, e. unfold qadd, qscale. rt_unfold. f_equal; ring.
Qed.

(** C4.  In the linear build, with the accelerometer or the compass
    enabled, [update] stores the component-wise error
    [m_measuredQPose - m_stateQ] and leaves in [m_stateQ] the
    normalization of [m_stateQ + error * (qt / (qt + m_R))] with
    [qt = m_Q * m_timeDelta]; with [m_Q = 0] that factor is [0], the
    correction leaves [m_stateQ] where [predict] put it, and [update]
    returns its normalization. *)
Theorem update_linear_blend (s : St) :
  (m_enableCompass s || m_enableAccel s) = true ->
  let qt := m_Q s * m_timeDelta s in
  let k := qt / (qt + m_R s) in
  let e := qsub (m_measuredQPose s) (m_stateQ s) in
  m_stateQError (update false s) = e /\
  m_stateQ (update false s) =
    qnormalize (qadd (m_stateQ s) (qscale e k)) /\
  (m_Q s = 0 ->
   k = 0 /\
   m_stateQ (update_correction false s) = m_stateQ s /\
   m_stateQ (update false s) = qnormalize (m_stateQ s)).
Proof.
  intros Hen qt k e.
  assert (Hc : update_correction false s =
               set_m_stateQ (qadd (m_stateQ s) (qscale e k))
                            (set_m_stateQError e s)).
  { unfold update_correction. rewrite update_linear_unfold, Hen.
    reflexivity. }
  assert (Hk : m_Q s = 0 -> k = 0).
  { intros HQ. subst k qt. rewrite HQ. rt_unfold. unfold Rdiv.
    rewrite !Rmult_0_l. reflexivity. }
  split; [|split].
  - unfold update. rewrite Hc. destruct s. reflexivity.
  - rewrite update_stateQ, Hc. destruct s. reflexivity.
  - intros HQ. specialize (Hk HQ). split; [exact Hk|].
    rewrite update_stateQ, Hc, Hk.
    replace (m_stateQ (set_m_stateQ (qadd (m_stateQ s) (qscale e 0))
                                    (set_m_stateQError e s)))
      with (qadd (m_stateQ s) (qscale e 0)) by (destruct s; reflexivity).
    rewrite qadd_scale_zero. split; reflexivity.
Qed.

(** *** Quaternion algebra for the slerp branch *)

Lemma qmul_conj_cancel (a b : Quat) :
  qnorm2 a = 1 -> qmul a (qmul (conjugate a) b) = b.
Proof.
  destruct a as [a0 a1 a2 a3], b as [b0 b1 b2 b3].
  unfold qnorm2, qmul, conjugate. rt_unfold. intros H.
  f_equal.
  - replace b0 with ((a0 * a0 + a1 * a1 + a2 * a2 + a3 * a3) * b0) at 5
      by (rewrite H; ring). ring.
  - replace b1 with ((a0 * a0 + a1 * a1 + a2 * a2 + a3 * a3) * b1) at 5
      by (rewrite H; ring). ring.
  - replace b2 with ((a0 * a0 + a1 * a1 + a2 * a2 + a3 * a3) * b2) at 5
      by (rewrite H; ring). ring.
  - replace b3 with ((a0 * a0 + a1 * a1 + a2 * a2 + a3 * a3) * b3) at 5
      by (rewrite H; ring). ring.
Qed.

Lemma qmul_scale_r (a b : Quat) (k : R) :
  qmul a (qscale b k) = qscale (qmul a b) k.
Proof.
  destruct a, b. unfold qmul, qscale. rt_unfold. f_equal; ring.
Qed.

Lemma qnorm2_qmul_conj (a b : Quat) :
  qnorm2 (qmul (conjugate a) b) = qnorm2 a * qnorm2 b.
Proof.
  destruct a, b. unfold qnorm2, qmul, conjugate. rt_unfold. ring.
Qed.

Lemma qmul_one_r (a : Quat) : qmul a (mkQuaternion 1 0 0 0) = a.
Proof. destruct a. unfold qmul. rt_unfold. f_equal; ring. Qed.

(** The rotation delta of a unit state is the normalized measurement,
    turned back by the state. *)
Lemma slerp_rotationDelta_unit (s : St) :
  qnorm2 (m_stateQ s) = 1 ->
  qmul (m_stateQ s) (slerp_rotationDelta s) = qnormalize (m_measuredQPose s).
Proof.
  intros H. unfold slerp_rotationDelta.
  rewrite qnormalize_scale, qmul_scale_r, (qmul_conj_cancel _ _ H).
  rewrite qnormalize_scale, !qlength_sqrt, qnorm2_qmul_conj, H, Rmult_1_l.
  reflexivity.
Qed.


Lemma unit_scalar_bound (e : Quat) : qnorm2 e = 1 -> -1 <= scalar e <= 1.
Proof.
  destruct e as [w x y z]. unfold qnorm2. rt_unfold. intros H. nra.
Qed.

Lemma sqrt_times_ratio (v x : R) :
  0 <= v -> (v = 0 -> x = 0) -> sqrt v * (x / sqrt v) = x.
Proof.
  intros Hv Hx. destruct (Req_dec (sqrt v) 0) as [Hz | Hn].
  - rewrite (Hx (sqrt_eq_0 v Hv Hz)). unfold Rdiv. ring.
  - field. exact Hn.
Qed.

(** At power one the partial rotation is the whole rotation delta. *)
Lemma rotationPower_of_one (e : Quat) :
  qlength e = 1 -> rotationPower_of e 1 = e.
Proof.
  intros Hl. pose proof (proj1 (qlength_unit e) Hl) as Hn.
  pose proof (unit_scalar_bound e Hn) as Hb.
  rewrite <- (qnormalize_unit e Hl) at 2.
  unfold rotationPower_of. f_equal.
  destruct e as [w x y z]. unfold qnorm2, vnormalize, vlength in *.
  rt_unfold.
  rewrite Rmult_1_r, (cos_acos w Hb), (sin_acos w Hb).
  assert (Hv : 1 - w² = x * x + y * y + z * z) by (unfold Rsqr; lra).
  rewrite Hv.
  assert (Hp : 0 <= x * x + y * y + z * z) by nra.
  f_equal; apply sqrt_times_ratio; try exact Hp; intros H0; nra.
Qed.

Lemma rotationPower_of_one_zero :
  rotationPower_of (RTQuaternion_zero (F := R)) 1 = RTQuaternion_zero.
Proof.
  rewrite <- qnormalize_zero at 2.
  unfold rotationPower_of, RTQuaternion_zero, vnormalize, vlength. f_equal.
  rt_unfold. rewrite Rmult_1_r, cos_acos by lra.
  unfold Rdiv. rewrite !Rmult_0_l, !Rmult_0_r. reflexivity.
Qed.

(** At power zero the partial rotation is the identity. *)
Lemma rotationPower_of_zero (e : Quat) :
  rotationPower_of e 0 = mkQuaternion 1 0 0 0.
Proof.
  unfold rotationPower_of, qnormalize, qlength. rt_unfold.
  rewrite Rmult_0_r, cos_0, sin_0, !Rmult_0_l.
  replace (1 * 1 + 0 + 0 + 0) with 1 by ring.
  rewrite sqrt_1. f_equal; field.
Qed.

Lemma qscale_qscale (q : Quat) (a b : R) :
  qscale (qscale q a) b = qscale q (a * b).
Proof. destruct q. unfold qscale. rt_unfold. f_equal; ring. Qed.

(** Without the unit length, turning a quaternion back and forth scales
    it by the squared length. *)
Lemma qmul_conj_scale (a b : Quat) :
  qmul a (qmul (conjugate a) b) = qscale b (qnorm2 a).
Proof.
  destruct a, b. unfold qnorm2, qmul, conjugate, qscale. rt_unfold.
  f_equal; ring.
Qed.

Lemma qnorm2_pos (q : Quat) : q <> RTQuaternion_zero -> 0 < qnorm2 q.
Proof.
  intros Hq. pose proof (qnorm2_nonneg q) as Hp.
  destruct (Req_dec (qnorm2 q) 0) as [Hz | Hn]; [|lra].
  exfalso. apply Hq, qnorm2_zero, Hz.
Qed.

Lemma qlength_pos (q : Quat) : q <> RTQuaternion_zero -> 0 < qlength q.
Proof.
  intros Hq. rewrite qlength_sqrt. apply sqrt_lt_R0, qnorm2_pos, Hq.
Qed.

(** The normalization does not see a positive factor. *)
Lemma qnormalize_scale_pos (q : Quat) (t : R) :
  0 < t -> qnormalize (qscale q t) = qnormalize q.
Proof.
  intros Ht. destruct (Req_dec (qnorm2 q) 0) as [Hz | Hn].
  - apply qnorm2_zero in Hz. subst q.
    replace (qscale RTQuaternion_zero t) with (RTQuaternion_zero (F := R))
      by (unfold qscale, RTQuaternion_zero; rt_unfold; f_equal; ring).
    reflexivity.
  - pose proof (qnorm2_nonneg q) as Hp.
    assert (Hs : 0 < sqrt (qnorm2 q)) by (apply sqrt_lt_R0; lra).
    assert (Hl : qlength (qscale q t) = sqrt (qnorm2 q) * t).
    { rewrite qlength_sqrt, qnorm2_scale, sqrt_mult; [|exact Hp|nra].
      rewrite sqrt_square; [reflexivity|lra]. }
    unfold qnormalize at 1. rewrite Hl.
    unfold qnormalize. rewrite qlength_sqrt.
    destruct q as [w x y z]. unfold qscale, qnorm2 in *. rt_unfold.
    f_equal; field; split; lra.
Qed.

(** *** The length of the predicted quaternion *)

Lemma predict_stateQ (s : St) :
  m_stateQ (predict s) =
  qadd (m_stateQ s)
       (qscale (mat_mul_quat (Fk_of (m_gyro s) (m_Fk s)) (m_stateQ s))
               (m_timeDelta s)).
Proof. rewrite predict_unfold. destruct s. reflexivity. Qed.

Lemma predict_norm2 (s : St) :
  diagonal_zero (m_Fk s) ->
  qnorm2 (m_stateQ (predict s)) =
  qnorm2 (m_stateQ s)
  * (1 + m_timeDelta s * m_timeDelta s * rate2 (m_gyro s) / 4).
Proof.
  intros (H0 & H1 & H2 & H3). rewrite predict_stateQ.
  destruct s. members.
  destruct m_Fk0 as [[d0 ? ? ?] [? d1 ? ?] [? ? d2 ?] [? ? ? d3]].
  cbn in H0, H1, H2, H3. subst d0 d1 d2 d3.
  destruct m_stateQ0, m_gyro0.
  unfold qnorm2, rate2, qadd, qscale, mat_mul_quat, row_dot, Fk_of.
  cbn [r0 r1 r2 r3 c0 c1 c2 c3]. rt_unfold. field.
Qed.

(** On a kept sample [predict] hands [update] a quaternion that is not
    zero, when it started from a unit one. *)
Lemma predicted_not_zero calculatePose (s : St) data settings :
  qlength (m_stateQ s) = 1 -> diagonal_zero (m_Fk s) ->
  m_stateQ (predict (accepted_input calculatePose s data settings)) <>
  RTQuaternion_zero.
Proof.
  intros Hl Hd Hz.
  assert (Hd' : diagonal_zero
                  (m_Fk (accepted_input calculatePose s data settings)))
    by (destruct s; exact Hd).
  assert (Hq : m_stateQ (accepted_input calculatePose s data settings)
               = m_stateQ s) by (destruct s; reflexivity).
  pose proof (predict_norm2 _ Hd') as Hn.
  rewrite Hz, Hq, (proj1 (qlength_unit _) Hl) in Hn.
  unfold qnorm2 at 1, RTQuaternion_zero in Hn. rt_unfold.
  set (a := accepted_input calculatePose s data settings) in *.
  assert (Hr : 0 <= m_timeDelta a * m_timeDelta a * rate2 (m_gyro a) / 4).
  { unfold rate2. destruct (m_gyro a) as [x y z]. cbn [vx vy vz].
    assert (0 <= m_timeDelta a * m_timeDelta a) by nra.
    assert (0 <= x * x + y * y + z * z) by nra.
    assert (0 <= m_timeDelta a * m_timeDelta a * (x * x + y * y + z * z))
      by (apply Rmult_le_pos; assumption).
    lra. }
  lra.
Qed.

(** *** The two ends of the slerp power *)

(** Power zero: the rotation applied is the identity, whatever the state
    and the measurement. *)
Lemma update_slerp_power_zero (u : St) :
  (m_enableCompass u || m_enableAccel u) = true ->
  m_slerpPower u = 0 ->
  m_rotationPower (update true u) = mkQuaternion 1 0 0 0 /\
  m_stateQ (update_correction true u) = m_stateQ u /\
  m_stateQ (update true u) = qnormalize (m_stateQ u).
Proof.
  intros Hen Hp.
  destruct (update_slerp_unfold u Hen) as (_ & HrP & Hq).
  rewrite Hp, rotationPower_of_zero in HrP, Hq. rewrite qmul_one_r in Hq.
  split; [|split].
  - rewrite <- HrP. unfold update, update_correction.
    destruct (update_slerp u). reflexivity.
  - exact Hq.
  - rewrite update_stateQ. unfold update_correction. rewrite Hq.
    reflexivity.
Qed.

(** Power one: the state becomes the normalized measurement, whatever its
    own length, as long as it is not zero. *)
Lemma update_slerp_power_one (u : St) :
  (m_enableCompass u || m_enableAccel u) = true ->
  m_slerpPower u = 1 ->
  m_stateQ u <> RTQuaternion_zero ->
  m_stateQ (update true u) = qnormalize (m_measuredQPose u).
Proof.
  intros Hen Hp Hnz.
  destruct (update_slerp_unfold u Hen) as (_ & _ & Hq).
  rewrite update_stateQ. unfold update_correction. rewrite Hq, Hp.
  unfold slerp_rotationDelta.
  set (p := m_stateQ u) in *. set (m := m_measuredQPose u).
  destruct (qnormalize_unit_or_zero (qmul (conjugate p) m))
    as [[Hd Hu] | [Hd Hn]].
  - rewrite (rotationPower_of_one _ Hu).
    rewrite (qnormalize_scale (qmul (conjugate p) m)).
    rewrite qmul_scale_r, qmul_conj_scale, qscale_qscale.
    apply qnormalize_scale_pos. apply Rmult_lt_0_compat.
    + apply qnorm2_pos. exact Hnz.
    + apply Rinv_0_lt_compat, qlength_pos. exact Hd.
  - rewrite Hn, rotationPower_of_one_zero.
    replace (qmul p RTQuaternion_zero) with (RTQuaternion_zero (F := R))
      by (destruct p; unfold qmul, RTQuaternion_zero; rt_unfold;
          f_equal; ring).
    assert (Hm : m = RTQuaternion_zero).
    { apply qnorm2_zero.
      assert (H0 : qnorm2 (qmul (conjugate p) m) = 0).
      { rewrite Hd. unfold qnorm2, RTQuaternion_zero. rt_unfold. ring. }
      rewrite qnorm2_qmul_conj in H0.
      apply Rmult_integral in H0. destruct H0 as [H0 | H0]; [|exact H0].
      pose proof (qnorm2_pos p Hnz). lra. }
    rewrite Hm. reflexivity.
Qed.

Lemma publish_rotationPower (u : St) a b :
  m_rotationPower (set_m_fusionQPose a (set_m_fusionPose b u)) =
  m_rotationPower u.
Proof. destruct u. reflexivity. Qed.

(** C5.  In the slerp build, on every sample that is kept by an object
    whose [m_stateQ] has unit length, with the accelerometer or the
    compass enabled.  [update] runs on the quaternion [predict] has just
    left, which is longer than a unit whenever the rate is not zero.  With
    [m_slerpPower = 0] the rotation applied is the identity: the
    correction leaves the predicted quaternion as it is and the call ends
    with its normalization.  With [m_slerpPower = 1] the call ends with
    the normalized [m_measuredQPose], which is [m_measuredQPose] itself
    when that has unit length.  The reason is that
    [q * (conjugate q * m)] is [m] scaled by the squared length of [q],
    and [m] itself for the unit [m_stateQ] the call started from. *)
Theorem update_slerp_power_bounds calculatePose toEuler (s : St) data
        settings :
  m_firstTime s = false ->
  (timeDelta_of (timestamp data) s <=? of_Z 0)%rt = false ->
  (m_enableCompass s || m_enableAccel s) = true ->
  qlength (m_stateQ s) = 1 ->
  diagonal_zero (m_Fk s) ->
  let a := accepted_input calculatePose s data settings in
  let predicted := m_stateQ (predict a) in
  let measured := m_measuredQPose a in
  let s' := state_after
              (newIMUData true calculatePose toEuler s data settings) in
  (m_slerpPower s = 0 ->
   m_rotationPower s' = mkQuaternion 1 0 0 0 /\
   m_stateQ (update_correction true (predict a)) = predicted /\
   m_stateQ s' = qnormalize predicted /\
   (qlength predicted = 1 -> m_stateQ s' = predicted)) /\
  (m_slerpPower s = 1 ->
   m_stateQ s' = qnormalize measured /\
   (qlength measured = 1 -> m_stateQ s' = measured)) /\
  qmul predicted (qmul (conjugate predicted) measured) =
    qscale measured (qnorm2 predicted) /\
  qmul (m_stateQ s) (qmul (conjugate (m_stateQ s)) measured) = measured.
Proof.
  intros HfT Hle Hen Hl Hd a predicted measured s'.
  destruct (newIMUData_accept_unfold true calculatePose toEuler s data
              settings HfT Hle) as [Hs _].
  destruct (predicted_configuration calculatePose s data settings)
    as (HeC & HeA & Hpw & HmQ).
  fold a in Hs, HeC, HeA, Hpw, HmQ.
  assert (Hen' : (m_enableCompass (predict a) || m_enableAccel (predict a))
                 = true) by (rewrite HeC, HeA; exact Hen).
  assert (HsQ : m_stateQ s' = m_stateQ (update true (predict a))).
  { subst s'. rewrite Hs. apply publish_stateQ. }
  assert (HrP : m_rotationPower s' = m_rotationPower (update true (predict a))).
  { subst s'. rewrite Hs. apply publish_rotationPower. }
  split; [|split; [|split]].
  - intros Hp. rewrite <- Hpw in Hp.
    destruct (update_slerp_power_zero (predict a) Hen' Hp)
      as (H1 & H2 & H3).
    rewrite HrP, HsQ. repeat split; try assumption.
    intros Hu. rewrite H3. apply qnormalize_unit. exact Hu.
  - intros Hp. rewrite <- Hpw in Hp.
    assert (Hm : m_stateQ s' = qnormalize measured).
    { rewrite HsQ. subst measured. rewrite <- HmQ.
      apply update_slerp_power_one; try assumption.
      apply predicted_not_zero; assumption. }
    split; [exact Hm|]. intros Hu. rewrite Hm.
    apply qnormalize_unit. exact Hu.
  - apply qmul_conj_scale.
  - apply qmul_conj_cancel, qlength_unit, Hl.
Qed.

(** C7 (as the code has it).  The correction is skipped only when the
    accelerometer and the compass are both disabled: then [update]
    returns the normalized predicted quaternion, in either build.  With
    one of the two disabled and the other enabled, [update] corrects
    towards [m_measuredQPose] exactly as it does with both enabled. *)
Theorem correction_skipped_only_when_both_disabled
        (USE_SLERP : bool) (s : St) :
  (m_enableAccel s = false /\ m_enableCompass s = false ->
   m_stateQ (update USE_SLERP s) = qnormalize (m_stateQ s)) /\
  ((m_enableCompass s || m_enableAccel s) = true ->
   m_stateQ (update USE_SLERP s) =
   m_stateQ (update USE_SLERP
                    (set_m_enableAccel true (set_m_enableCompass true s)))).
Proof.
  split.
  - intros [HA HC]. rewrite update_stateQ. f_equal.
    unfold update_correction. destruct USE_SLERP.
    + rewrite update_slerp_disabled; [reflexivity|].
      rewrite HA, HC. reflexivity.
    + rewrite update_linear_unfold, HA, HC. cbn [orb].
      replace (m_stateQ (set_m_stateQ _ _)) with
        (qadd (m_stateQ s)
              (qscale RTQuaternion_zero
                      ((m_Q s * m_timeDelta s)
                       / (m_Q s * m_timeDelta s + m_R s))%rt))
        by (destruct s; reflexivity).
      destruct (m_stateQ s). unfold qadd, qscale, RTQuaternion_zero.
      rt_unfold. f_equal; ring.
  - intros Hen. rewrite !update_stateQ. f_equal.
    unfold update_correction. destruct USE_SLERP.
    + rewrite (update_slerp_enabled s Hen).
      rewrite update_slerp_enabled by (destruct s; reflexivity).
      destruct s. reflexivity.
    + rewrite !update_linear_unfold, Hen. destruct s. reflexivity.
Qed.

End Exact.

(** ** The argument of [acos] *)


(** ** The statements on the sample objects *)

Section Examples.
Local Open Scope R_scope.

(** Evaluating the quaternion and matrix operations on explicit values. *)
Ltac quat_values :=
  cbv beta iota zeta delta
      [orb qadd qsub qscale qmul conjugate mat_mul_quat row_dot Fk_of fill
       heading_pose sample north vzero qone qzero
       gyro accel compass timestamp compassValid m_compassAdjDeclination
       RTQuaternion_zero RTVector3_zero
       r0 r1 r2 r3 c0 c1 c2 c3 scalar qx qy qz vx vy vz];
  rt_unfold; unfold R_ticks; rewrite ?Z.sub_0_r.

Lemma qone_unit : qlength qone = 1.
Proof.
  unfold qlength, qone. rt_unfold.
  replace (1 * 1 + 0 * 0 + 0 * 0 + 0 * 0) with 1 by ring. apply sqrt_1.
Qed.

Lemma repeated_sample_rejected :
  (timeDelta_of (timestamp repeated_sample) rest_state <=? of_Z 0)%rt = true.
Proof. apply same_timestamp_rejected. reflexivity. Qed.


(** The fresh object is an object as the constructor leaves it, in either
    build: running the constructor on it changes nothing. *)
Lemma fresh_state_constructed :
  RTFusionRTQF_init false fresh_state = fresh_state /\
  RTFusionRTQF_init true fresh_state = fresh_state.
Proof.
  unfold RTFusionRTQF_init, reset, fresh_state. members.
  unfold RTVector3_zero. rt_unfold. rewrite fromEuler_zero.
  split; reflexivity.
Qed.

(** C6 on the fresh object: the first sample sets the time base, the state
    from the measured pose, and both validity flags. *)
Lemma newIMUData_first_sample_witness :
  m_firstTime fresh_state = true /\
  let r := newIMUData false heading_pose no_euler fresh_state
                      first_sample no_declination in
  m_lastFusionTime (state_after r) = 0%Z /\
  m_stateQ (state_after r) = fromEuler vzero /\
  m_fusionQPose (state_after r) = m_stateQ (state_after r) /\
  fusionPoseValid (data_after r) = true /\
  fusionQPoseValid (data_after r) = true.
Proof.
  split; [reflexivity|].
  pose proof (newIMUData_first_sample false heading_pose no_euler fresh_state
                first_sample no_declination eq_refl) as H.
  cbv zeta in H.
  destruct H as (HlT & _ & HmP & _ & HsQ & _ & HfQ & _ & _ & Hv1 & Hv2 & _).
  cbv zeta. rewrite HmP in HsQ.
  repeat split; assumption.
Defined.

(** C1 on the resting object: a second sample with the time base's own
    timestamp is dropped, the state quaternion and the caller's record
    untouched. *)
Lemma newIMUData_discard_keeps_orientation_witness :
  m_firstTime rest_state = false /\
  (timeDelta_of (timestamp repeated_sample) rest_state <=? of_Z 0)%rt = true /\
  let r := newIMUData false heading_pose no_euler rest_state
                      repeated_sample no_declination in
  data_after r = repeated_sample /\
  m_stateQ (state_after r) = qone /\
  m_fusionQPose (state_after r) = qone.
Proof.
  split; [reflexivity|]. split; [exact repeated_sample_rejected|].
  pose proof (newIMUData_discard_keeps_orientation false heading_pose
                no_euler rest_state repeated_sample no_declination eq_refl
                repeated_sample_rejected) as H.
  cbv zeta in H.
  destruct H as (Hd & (HsQ & _) & (_ & _ & _ & HfQ) & _).
  cbv zeta. repeat split; assumption.
Defined.

(** C1 as stated fails on the resting object: the dropped sample has moved
    the sample counter from 1 to 2 and stored its gyro reading. *)
Lemma newIMUData_discard_mutates_state :
  m_firstTime rest_state = false /\
  (timeDelta_of (timestamp repeated_sample) rest_state <=? of_Z 0)%rt = true /\
  let s' := state_after (newIMUData false heading_pose no_euler rest_state
                                    repeated_sample no_declination) in
  m_sampleNumber rest_state = 1%Z /\ m_sampleNumber s' = 2%Z /\
  m_gyro rest_state = vzero /\ m_gyro s' = mkVector3 3 0 0 /\
  s' <> rest_state.
Proof.
  split; [reflexivity|]. split; [exact repeated_sample_rejected|].
  destruct (newIMUData_discard_unfold false heading_pose no_euler rest_state
              repeated_sample no_declination eq_refl
              repeated_sample_rejected) as [Hs _].
  cbv zeta. rewrite Hs. repeat (split; [reflexivity|]).
  intros H. apply (f_equal (@m_sampleNumber R)) in H. discriminate H.
Qed.

(** C10 on the resting object: the dropped sample is the one the next
    [m_timeDelta] is measured from. *)
Lemma newIMUData_discard_bookkeeping_witness :
  m_firstTime rest_state = false /\
  (timeDelta_of (timestamp repeated_sample) rest_state <=? of_Z 0)%rt = true /\
  let s' := state_after (newIMUData false heading_pose no_euler rest_state
                                    repeated_sample no_declination) in
  m_sampleNumber s' = 2%Z /\
  m_gyro s' = mkVector3 3 0 0 /\
  m_lastFusionTime s' = 0%Z /\
  m_stateQ s' = qone.
Proof.
  split; [reflexivity|]. split; [exact repeated_sample_rejected|].
  pose proof (newIMUData_discard_bookkeeping false heading_pose no_euler
                rest_state repeated_sample no_declination eq_refl
                repeated_sample_rejected) as H.
  cbv zeta in H.
  destruct H as ((Hg & _) & Hn & HlT & _ & (HsQ & _) & _).
  cbv zeta. repeat split; assumption.
Defined.

(** The generic objects, read in exact arithmetic, are the objects
    above. *)
Lemma sample_objects_exact :
  fresh_state_in = fresh_state /\ rest_state_in = rest_state /\
  first_sample_in = first_sample /\ opposed_sample_in = opposed_sample /\
  no_declination_in = no_declination /\
  (forall ea ec cv fp fq acc mag decl,
      heading_pose_in ea ec cv fp fq acc mag decl =
      heading_pose ea ec cv fp fq acc mag decl) /\
  (forall q, no_euler_in q = no_euler q).
Proof. repeat split. Qed.





(** C4 on the resting object: the error is stored and the blend is
    normalized. *)
Lemma update_linear_blend_witness :
  (m_enableCompass rest_state || m_enableAccel rest_state) = true /\
  m_stateQError (update false rest_state) =
    qsub (m_measuredQPose rest_state) (m_stateQ rest_state).
Proof.
  split; [reflexivity|].
  apply (update_linear_blend rest_state eq_refl).
Defined.


Lemma rest_state_diagonal : diagonal_zero (m_Fk rest_state).
Proof. unfold diagonal_zero. repeat split. Qed.

(** A sample half a second after the time base, turning at 2 rad/s about
    x, the measurement a half-turn about x away from the state. *)
Lemma half_turn_sample_kept (p : R) :
  (timeDelta_of
     (timestamp (sample 500000 (mkVector3 2 0 0) (mkVector3 0 1 0)))
     (set_m_slerpPower p rest_state) <=? of_Z 0)%rt = false.
Proof. apply later_timestamp_accepted. reflexivity. Qed.

Lemma half_turn_unit : qlength (mkQuaternion 0 1 0 0 : RTQuaternion R) = 1.
Proof.
  unfold qlength. rt_unfold.
  replace (0 * 0 + 1 * 1 + 0 * 0 + 0 * 0) with 1 by ring. apply sqrt_1.
Qed.

(** C5 on the resting object, with the power set to 0 and to 1, fed a
    sample that turns: [predict] leaves (1, 1/2, 0, 0), which is not a
    unit; at power 0 the call ends with its normalization, at power 1 with
    the measurement (0, 1, 0, 0). *)
Lemma update_slerp_power_bounds_witness :
  let d := sample 500000 (mkVector3 2 0 0) (mkVector3 0 1 0) in
  let s0 := set_m_slerpPower 0 rest_state in
  let s1 := set_m_slerpPower 1 rest_state in
  (m_firstTime s0 = false /\
   (timeDelta_of (timestamp d) s0 <=? of_Z 0)%rt = false /\
   (m_enableCompass s0 || m_enableAccel s0) = true /\
   qlength (m_stateQ s0) = 1 /\ diagonal_zero (m_Fk s0) /\
   m_slerpPower s0 = 0) /\
  (m_firstTime s1 = false /\
   (timeDelta_of (timestamp d) s1 <=? of_Z 0)%rt = false /\
   (m_enableCompass s1 || m_enableAccel s1) = true /\
   qlength (m_stateQ s1) = 1 /\ diagonal_zero (m_Fk s1) /\
   m_slerpPower s1 = 1) /\
  m_stateQ (predict (accepted_input heading_pose s0 d no_declination)) =
    mkQuaternion 1 (1 / 2) 0 0 /\
  m_stateQ (state_after (newIMUData true heading_pose no_euler s0 d
                                    no_declination)) =
    qnormalize (mkQuaternion 1 (1 / 2) 0 0) /\
  m_stateQ (state_after (newIMUData true heading_pose no_euler s1 d
                                    no_declination)) =
    mkQuaternion 0 1 0 0.
Proof.
  cbv zeta.
  split.
  { repeat (split; [reflexivity|]). split; [apply half_turn_sample_kept|].
    split; [reflexivity|]. split; [exact qone_unit|].
    split; [exact rest_state_diagonal | reflexivity]. }
  split.
  { repeat (split; [reflexivity|]). split; [apply half_turn_sample_kept|].
    split; [reflexivity|]. split; [exact qone_unit|].
    split; [exact rest_state_diagonal | reflexivity]. }
  assert (Hp : m_stateQ
                 (predict
                    (accepted_input heading_pose
                       (set_m_slerpPower 0 rest_state)
                       (sample 500000 (mkVector3 2 0 0) (mkVector3 0 1 0))
                       no_declination))
               = mkQuaternion 1 (1 / 2) 0 0).
  { rewrite predict_unfold.
    unfold accepted_input, bookkeeping, rest_state, timeDelta_of.
    members. quat_values. f_equal; field. }
  split; [exact Hp|]. split.
  - pose proof (update_slerp_power_bounds heading_pose no_euler
                  (set_m_slerpPower 0 rest_state)
                  (sample 500000 (mkVector3 2 0 0) (mkVector3 0 1 0))
                  no_declination eq_refl (half_turn_sample_kept 0) eq_refl
                  qone_unit rest_state_diagonal) as H.
    cbv zeta in H. destruct H as (H & _).
    destruct (H eq_refl) as (_ & _ & H3 & _).
    rewrite H3, Hp. reflexivity.
  - pose proof (update_slerp_power_bounds heading_pose no_euler
                  (set_m_slerpPower 1 rest_state)
                  (sample 500000 (mkVector3 2 0 0) (mkVector3 0 1 0))
                  no_declination eq_refl (half_turn_sample_kept 1) eq_refl
                  qone_unit rest_state_diagonal) as H.
    cbv zeta in H. destruct H as (_ & H & _).
    destruct (H eq_refl) as (_ & H2).
    apply H2. exact half_turn_unit.
Defined.


(** C7 as stated fails in the linear build: the resting object, its
    accelerometer disabled and its compass enabled, receives half a second
    later a sample at rest whose measurement is a half-turn away; the
    sample is kept, [predict] leaves the identity, and [update] still moves
    the state half way to the measurement instead of returning the
    normalized prediction. *)
Lemma accel_disabled_still_corrects :
  let s := set_m_enableAccel false rest_state in
  let a := accepted_input heading_pose s turned_sample no_declination in
  m_enableAccel s = false /\ m_enableCompass s = true /\
  m_firstTime s = false /\
  (timeDelta_of (timestamp turned_sample) s <=? of_Z 0)%rt = false /\
  m_stateQ (state_after (newIMUData false heading_pose no_euler s
                                    turned_sample no_declination)) <>
  qnormalize (m_stateQ (predict a)).
Proof.
  cbv zeta.
  assert (Hacc : (timeDelta_of (timestamp turned_sample)
                               (set_m_enableAccel false rest_state)
                  <=? of_Z 0)%rt = false)
    by (apply later_timestamp_accepted; reflexivity).
  repeat (split; [reflexivity|]). split; [exact Hacc|].
  destruct (newIMUData_accept_unfold false heading_pose no_euler
              (set_m_enableAccel false rest_state) turned_sample
              no_declination eq_refl Hacc) as [Hs _].
  cbv zeta in Hs. rewrite Hs, publish_stateQ, update_stateQ. clear Hs.
  unfold update_correction. rewrite update_linear_unfold, predict_unfold.
  unfold accepted_input, bookkeeping, rest_state, turned_sample,
    timeDelta_of.
  members. quat_values.
  match goal with
  | |- _ <> qnormalize ?p =>
      replace p with qone by (unfold qone; f_equal; field)
  end.
  rewrite (qnormalize_unit qone qone_unit).
  unfold qnormalize, qone. rt_unfold. intros H.
  assert (H0 : forall a b c d a' b' c' d' : R,
             mkQuaternion a b c d = mkQuaternion a' b' c' d' ->
             a = a' /\ b = b')
    by (intros; split; congruence).
  apply H0 in H. destruct H as [Hw Hx].
  match type of Hw with
  | ?a / ?l = _ =>
      match type of Hx with
      | ?b / l = _ =>
          assert (Hab : a = b) by field;
          set (L := l) in *; rewrite Hab, Hx in Hw; lra
      end
  end.
Qed.


(** C8 on the fresh object: its first sample leaves the counter at 2 with
    [m_debug] set and at 1 with [m_debug] clear, and logs only in the first
    case. *)
Lemma debug_counts_twice_on_fresh :
  m_sampleNumber
    (state_after (newIMUData false heading_pose no_euler
                             (set_m_debug true fresh_state)
                             first_sample no_declination)) = 2%Z /\
  m_sampleNumber
    (state_after (newIMUData false heading_pose no_euler
                             (set_m_debug false fresh_state)
                             first_sample no_declination)) = 1%Z /\
  log_of (newIMUData false heading_pose no_euler
                     (set_m_debug false fresh_state)
                     first_sample no_declination) = [].
Proof.
  rewrite !newIMUData_sampleNumber. repeat split.
Qed.

(** [predict] does not renormalize: from the identity, one second of
    2 rad/s about x gives a quaternion of squared length 2. *)
Lemma predict_lengthens :
  let s := set_m_timeDelta 1 (set_m_gyro (mkVector3 2 0 0) rest_state) in
  m_stateQ (predict s) = mkQuaternion 1 1 0 0 /\
  qnorm2 (m_stateQ (predict s)) = 2.
Proof.
  cbv zeta. rewrite predict_unfold.
  unfold rest_state. members. quat_values. unfold qnorm2. quat_values.
  split; [f_equal; field | field].
Qed.
End Examples.

(** ** The same runs in machine arithmetic *)

Section MachineArithmetic.

(** The first sample in binary64, with any math library for which
    [cos 0 = 1] and [sin 0 = 0]: the fresh object becomes the resting one,
    in either build and whatever the two correction flags. *)
Lemma b64_first_sample (libm : RTLibm float) (USE_SLERP eA eC : bool) :
  fcos 0%float = 1%float -> fsin 0%float = 0%float ->
  state_after
    (newIMUData USE_SLERP heading_pose_in no_euler_in
                (set_m_enableCompass eC (set_m_enableAccel eA fresh_state_in))
                first_sample_in no_declination_in) =
  set_m_enableCompass eC (set_m_enableAccel eA rest_state_in).
Proof.
  intros Hc Hs.
  assert (HfE : fromEuler (RTVector3_zero (F := float)) = qone_in).
  { unfold fromEuler, RTVector3_zero. cbn [vx vy vz].
    replace (fdiv (of_Z 0) (of_Z 2)) with 0%float
      by (vm_compute; reflexivity).
    rewrite Hc, Hs. vm_compute. reflexivity. }
  destruct (newIMUData_first_unfold USE_SLERP heading_pose_in no_euler_in
              (set_m_enableCompass eC
                 (set_m_enableAccel eA fresh_state_in))
              first_sample_in no_declination_in eq_refl) as [H _].
  cbv zeta in H. rewrite H. unfold heading_pose_in. cbn [fst snd].
  rewrite HfE.
  destruct eA, eC; vm_compute; reflexivity.
Qed.

(** The same in binary32. *)
Lemma b32_first_sample (libm : RTLibm spec_float)
      (USE_SLERP eA eC : bool) :
  fcos (of_Z 0) = of_Z 1 -> fsin (of_Z 0) = of_Z 0 ->
  state_after
    (newIMUData USE_SLERP heading_pose_in no_euler_in
                (set_m_enableCompass eC (set_m_enableAccel eA fresh_state_in))
                first_sample_in no_declination_in) =
  set_m_enableCompass eC (set_m_enableAccel eA rest_state_in).
Proof.
  intros Hc Hs.
  assert (HfE : fromEuler (RTVector3_zero (F := spec_float)) = qone_in).
  { unfold fromEuler, RTVector3_zero. cbn [vx vy vz].
    replace (fdiv (of_Z 0) (of_Z 2)) with (of_Z 0 : spec_float)
      by (vm_compute; reflexivity).
    rewrite Hc, Hs. vm_compute. reflexivity. }
  destruct (newIMUData_first_unfold USE_SLERP heading_pose_in no_euler_in
              (set_m_enableCompass eC
                 (set_m_enableAccel eA fresh_state_in))
              first_sample_in no_declination_in eq_refl) as [H _].
  cbv zeta in H. rewrite H. unfold heading_pose_in. cbn [fst snd].
  rewrite HfE.
  destruct eA, eC; vm_compute; reflexivity.
Qed.



(** X16.  In machine arithmetic the sum of squares under the root of
    [normalize] can overflow.  An object with both corrections disabled
    takes a level first sample and, one second later, a sample whose gyro
    rate about x is 2^600 rad/s in binary64, 2^100 rad/s in binary32.  The
    sample is kept; [predict] leaves (1, rate / 2, 0, 0); the correction
    is skipped in either build; the length [normalize] computes is
    +infinity and every component divided by it is 0.  So [m_stateQ] is
    the zero quaternion after the call, and the quaternion the caller
    reads, marked valid, is the zero quaternion too. *)
Theorem pure_gyro_overflow_zero :
  (let s0 := set_m_enableCompass false
               (set_m_enableAccel false (rest_state_in (F := float))) in
   let a := accepted_input heading_pose_in s0 (spinning_sample 600)
                           no_declination_in in
   (timeDelta_of (timestamp (spinning_sample (F := float) 600)) s0
    <=? of_Z 0)%rt = false /\
   m_timeDelta a = 1%float /\
   m_stateQ (predict a) =
     mkQuaternion 1%float 0x1p599%float 0%float 0%float /\
   qlength (m_stateQ (predict a)) = infinity /\
   forall (libm : RTLibm float) (USE_SLERP : bool),
     fcos 0%float = 1%float -> fsin 0%float = 0%float ->
     let r1 := newIMUData USE_SLERP heading_pose_in no_euler_in
                          (set_m_enableCompass false
                             (set_m_enableAccel false fresh_state_in))
                          first_sample_in no_declination_in in
     let r2 := newIMUData USE_SLERP heading_pose_in no_euler_in
                          (state_after r1) (spinning_sample 600)
                          no_declination_in in
     state_after r1 = s0 /\
     m_stateQ (update_correction USE_SLERP (predict a)) =
       m_stateQ (predict a) /\
     m_stateQ (state_after r2) = RTQuaternion_zero /\
     fusionQPose (data_after r2) = RTQuaternion_zero /\
     fusionQPoseValid (data_after r2) = true) /\
  (let s0 := set_m_enableCompass false
               (set_m_enableAccel false (rest_state_in (F := spec_float))) in
   let a := accepted_input heading_pose_in s0 (spinning_sample 100)
                           no_declination_in in
   (timeDelta_of (timestamp (spinning_sample (F := spec_float) 100)) s0
    <=? of_Z 0)%rt = false /\
   m_timeDelta a = of_Z 1 /\
   m_stateQ (predict a) =
     mkQuaternion (of_Z 1) (of_Z (2 ^ 99)) (of_Z 0) (of_Z 0) /\
   qlength (m_stateQ (predict a)) = S754_infinity false /\
   forall (libm : RTLibm spec_float) (USE_SLERP : bool),
     fcos (of_Z 0) = of_Z 1 -> fsin (of_Z 0) = of_Z 0 ->
     let r1 := newIMUData USE_SLERP heading_pose_in no_euler_in
                          (set_m_enableCompass false
                             (set_m_enableAccel false fresh_state_in))
                          first_sample_in no_declination_in in
     let r2 := newIMUData USE_SLERP heading_pose_in no_euler_in
                          (state_after r1) (spinning_sample 100)
                          no_declination_in in
     state_after r1 = s0 /\
     m_stateQ (update_correction USE_SLERP (predict a)) =
       m_stateQ (predict a) /\
     m_stateQ (state_after r2) = RTQuaternion_zero /\
     fusionQPose (data_after r2) = RTQuaternion_zero /\
     fusionQPoseValid (data_after r2) = true).
Proof.
  cbv zeta. split.
  - do 4 (split; [vm_compute; reflexivity|]).
    intros libm USE_SLERP Hc Hs.
    rewrite (b64_first_sample libm USE_SLERP false false Hc Hs).
    split; [reflexivity|].
    destruct USE_SLERP; repeat split; vm_compute; reflexivity.
  - do 4 (split; [vm_compute; reflexivity|]).
    intros libm USE_SLERP Hc Hs.
    rewrite (b32_first_sample libm USE_SLERP false false Hc Hs).
    split; [reflexivity|].
    destruct USE_SLERP; repeat split; vm_compute; reflexivity.
Qed.
End MachineArithmetic.

(** ** Further properties that hold in every arithmetic *)

Section MoreControl.
Context {F : Type} {RF : RTFloat F} {RL : RTLibm F}.
Local Open Scope rt_scope.

Variable USE_SLERP : bool.
Variable calculatePose :
  bool -> bool -> bool -> RTVector3 F -> RTQuaternion F ->
  RTVector3 F -> RTVector3 F -> F -> RTVector3 F * RTQuaternion F.
Variable toEuler : RTQuaternion F -> RTVector3 F.

Local Abbreviation St := (RTFusionRTQF F).
Local Abbreviation ingest := (newIMUData USE_SLERP calculatePose toEuler).
Local Abbreviation run := (feed USE_SLERP calculatePose toEuler).

(** *** One call *)

Lemma update_keeps_Fk (s : St) : m_Fk (update USE_SLERP s) = m_Fk s.
Proof.
  rewrite update_unfold. unfold update_correction. destruct USE_SLERP.
  - destruct (m_enableCompass s || m_enableAccel s) eqn:Hen.
    + rewrite (update_slerp_enabled s Hen). destruct s. reflexivity.
    + rewrite (update_slerp_disabled s Hen). destruct s. reflexivity.
  - rewrite update_linear_unfold. destruct s. reflexivity.
Qed.

(** What a kept sample leaves in the members [update] and [predict] do not
    write, and in [m_Fk]. *)
Lemma newIMUData_accept_members (s : St) data settings :
  m_firstTime s = false ->
  (timeDelta_of (timestamp data) s <=? of_Z 0) = false ->
  let s' := state_after (ingest s data settings) in
  let u := update USE_SLERP
                  (predict (accepted_input calculatePose s data settings)) in
  same_configuration s' s /\
  m_firstTime s' = false /\
  m_lastFusionTime s' = timestamp data /\
  m_gyro s' = (if m_enableGyro s then gyro data else RTVector3_zero) /\
  m_Fk s' = Fk_of (if m_enableGyro s then gyro data else RTVector3_zero)
                  (m_Fk s) /\
  m_stateQ s' = m_stateQ u /\
  m_fusionQPose s' = m_stateQ u /\
  m_fusionPose s' = toEuler (m_stateQ u) /\
  data_after (ingest s data settings) =
    set_fusion (toEuler (m_stateQ u)) (m_stateQ u) data.
Proof.
  intros HfT Hle s' u.
  destruct (newIMUData_accept_unfold USE_SLERP calculatePose toEuler
              s data settings HfT Hle) as [Hs Hd].
  cbv zeta in Hs, Hd. fold u in Hs, Hd. subst s'. rewrite Hs, Hd. clear Hs Hd.
  set (a := accepted_input calculatePose s data settings) in *.
  pose proof (update_frame USE_SLERP (predict a)) as Hu.
  pose proof (update_keeps_Fk (predict a)) as HuF.
  pose proof (predict_frame a) as Hp.
  assert (HpF : m_Fk (predict a) = Fk_of (m_gyro a) (m_Fk a))
    by (rewrite predict_unfold; destruct a; reflexivity).
  assert (Ha : same_configuration a s /\ m_firstTime a = m_firstTime s /\
               m_lastFusionTime a = timestamp data /\
               m_gyro a = (if m_enableGyro s then gyro data
                           else RTVector3_zero) /\
               m_Fk a = m_Fk s)
    by (subst a; unfold accepted_input, same_configuration, bookkeeping;
        destruct s; members; repeat split).
  fold u in Hu, HuF. unfold same_bookkeeping, same_configuration in *.
  destruct u, (predict a), a. open_state s. subst fT.
  members. cbn in Hu, Hp, Ha, HuF, HpF |- *.
  repeat match goal with H : _ /\ _ |- _ => destruct H end.
  subst. repeat split.
Qed.

(** Every call leaves the object initialized. *)
Lemma newIMUData_firstTime (s : St) data settings :
  m_firstTime (state_after (ingest s data settings)) = false.
Proof.
  destruct (m_firstTime s) eqn:HfT.
  - destruct (newIMUData_first_unfold USE_SLERP calculatePose toEuler
                s data settings HfT) as [Hs _].
    rewrite Hs. destruct s. reflexivity.
  - destruct (timeDelta_of (timestamp data) s <=? of_Z 0) eqn:Hle.
    + destruct (newIMUData_discard_unfold USE_SLERP calculatePose toEuler
                  s data settings HfT Hle) as [Hs _].
      rewrite Hs. open_state s. exact HfT.
    + apply (newIMUData_accept_members s data settings HfT Hle).
Qed.

(** Every call moves the time base to its own timestamp. *)
Lemma newIMUData_lastFusionTime (s : St) data settings :
  m_lastFusionTime (state_after (ingest s data settings)) = timestamp data.
Proof.
  destruct (m_firstTime s) eqn:HfT.
  - destruct (newIMUData_first_unfold USE_SLERP calculatePose toEuler
                s data settings HfT) as [Hs _].
    rewrite Hs. destruct s. reflexivity.
  - destruct (timeDelta_of (timestamp data) s <=? of_Z 0) eqn:Hle.
    + destruct (newIMUData_discard_unfold USE_SLERP calculatePose toEuler
                  s data settings HfT Hle) as [Hs _].
      rewrite Hs. destruct s. reflexivity.
    + apply (newIMUData_accept_members s data settings HfT Hle).
Qed.

(** No call writes a flag or a gain. *)
Lemma newIMUData_configuration (s : St) data settings :
  same_configuration (state_after (ingest s data settings)) s.
Proof.
  destruct (m_firstTime s) eqn:HfT.
  - destruct (newIMUData_first_unfold USE_SLERP calculatePose toEuler
                s data settings HfT) as [Hs _].
    rewrite Hs. destruct s. unfold same_configuration. repeat split.
  - destruct (timeDelta_of (timestamp data) s <=? of_Z 0) eqn:Hle.
    + destruct (newIMUData_discard_unfold USE_SLERP calculatePose toEuler
                  s data settings HfT Hle) as [Hs _].
      rewrite Hs. destruct s. unfold same_configuration. repeat split.
    + apply (newIMUData_accept_members s data settings HfT Hle).
Qed.

(** *** Streams *)

Lemma feed_nil settings (s : St) : run settings s [] = s.
Proof. reflexivity. Qed.

Lemma feed_cons settings (s : St) data samples :
  run settings s (data :: samples) =
  run settings (state_after (ingest s data settings)) samples.
Proof. reflexivity. Qed.

Lemma feed_snoc settings (s : St) samples data :
  run settings s (samples ++ [data]) =
  state_after (ingest (run settings s samples) data settings).
Proof. unfold feed. rewrite fold_left_app. reflexivity. Qed.

Lemma feed_configuration settings (s : St) samples :
  same_configuration (run settings s samples) s.
Proof.
  revert s. induction samples as [|d ds IH]; intros s.
  - unfold same_configuration. repeat split.
  - rewrite feed_cons.
    pose proof (IH (state_after (ingest s d settings))) as H1.
    pose proof (newIMUData_configuration s d settings) as H2.
    unfold same_configuration in *.
    repeat match goal with H : _ /\ _ |- _ => destruct H end.
    repeat split; congruence.
Qed.

(** X1.  Time is measured call to call: after any stream of calls the
    object is initialized and its time base is the timestamp of the last
    sample fed, and when at least two samples were fed the [m_timeDelta] it
    holds is the difference of the last two timestamps divided by 1e6,
    whether the earlier of the two was kept, discarded or the first. *)
Theorem feed_time_base settings (s : St) samples d1 d2 :
  let after := feed USE_SLERP calculatePose toEuler settings s in
  m_firstTime (after (samples ++ [d1])) = false /\
  m_lastFusionTime (after (samples ++ [d1])) = timestamp d1 /\
  m_timeDelta (after (samples ++ [d1; d2])) =
    fticks (timestamp d2) (timestamp d1) / of_Z 1000000.
Proof.
  cbv zeta. rewrite feed_snoc. split; [apply newIMUData_firstTime|].
  split; [apply newIMUData_lastFusionTime|].
  change (samples ++ [d1; d2]) with (samples ++ [d1] ++ [d2]).
  rewrite app_assoc, (feed_snoc settings s (samples ++ [d1]) d2), feed_snoc.
  rewrite newIMUData_timeDelta by apply newIMUData_firstTime.
  unfold timeDelta_of. rewrite newIMUData_lastFusionTime. reflexivity.
Qed.

(** X2.  The sample counter counts calls, not samples kept: after a stream
    of [n] calls it stands [n] above its old value, and [2 n] above when
    [m_debug] is set; discarded samples are counted like the others. *)
Theorem feed_sampleNumber settings (s : St) samples :
  m_sampleNumber (feed USE_SLERP calculatePose toEuler settings s samples) =
  (m_sampleNumber s
   + (if m_debug s then 2 else 1) * Z.of_nat (List.length samples))%Z.
Proof.
  revert s. induction samples as [|d ds IH]; intros s.
  - rewrite feed_nil. cbn [List.length Z.of_nat].
    rewrite Z.mul_0_r, Z.add_0_r. reflexivity.
  - rewrite feed_cons, IH, newIMUData_sampleNumber.
    destruct (newIMUData_configuration s d settings) as [Hd _].
    rewrite Hd. cbn [List.length]. rewrite Nat2Z.inj_succ, Z.mul_succ_r.
    rewrite <- Z.add_assoc. f_equal. apply Z.add_comm.
Qed.

(** X3.  No call writes the configuration: the debug flag, the three
    enable flags and the gains [m_Q], [m_R] and [m_slerpPower] are after
    any stream of calls what they were before it. *)
Theorem feed_keeps_configuration settings (s : St) samples :
  let s' := feed USE_SLERP calculatePose toEuler settings s samples in
  m_debug s' = m_debug s /\ m_enableGyro s' = m_enableGyro s /\
  m_enableAccel s' = m_enableAccel s /\
  m_enableCompass s' = m_enableCompass s /\
  m_Q s' = m_Q s /\ m_R s' = m_R s /\ m_slerpPower s' = m_slerpPower s.
Proof. exact (feed_configuration settings s samples). Qed.

(** X4.  The published quaternion is the state quaternion: a call on an
    object that is not yet initialized, or whose [m_fusionQPose] equals
    its [m_stateQ], leaves [m_fusionQPose] equal to [m_stateQ]; and unless
    the sample is discarded the caller's record carries that same
    quaternion and [m_fusionPose], with both validity flags set. *)
Theorem newIMUData_publishes_state (s : St) data settings :
  m_firstTime s = true \/ m_fusionQPose s = m_stateQ s ->
  let r := ingest s data settings in
  let s' := state_after r in
  m_fusionQPose s' = m_stateQ s' /\
  (m_firstTime s = true \/
   (timeDelta_of (timestamp data) s <=? of_Z 0) = false ->
   fusionQPose (data_after r) = m_stateQ s' /\
   fusionPose (data_after r) = m_fusionPose s' /\
   fusionQPoseValid (data_after r) = true /\
   fusionPoseValid (data_after r) = true).
Proof.
  intros Hinv r s'. subst r s'.
  destruct (m_firstTime s) eqn:HfT.
  - destruct (newIMUData_first_unfold USE_SLERP calculatePose toEuler
                s data settings HfT) as [Hs Hd].
    rewrite Hs, Hd. destruct s. members. repeat split.
  - destruct Hinv as [Habs | Hinv]; [discriminate Habs|].
    destruct (timeDelta_of (timestamp data) s <=? of_Z 0) eqn:Hle.
    + destruct (newIMUData_discard_unfold USE_SLERP calculatePose toEuler
                  s data settings HfT Hle) as [Hs Hd].
      rewrite Hs, Hd. split.
      * open_state s. members. exact Hinv.
      * intros [Habs | Habs]; discriminate Habs.
    + destruct (newIMUData_accept_members s data settings HfT Hle)
        as (_ & _ & _ & _ & _ & HsQ & HfQ & HfP & Hd).
      rewrite Hd, HsQ, HfQ, HfP. repeat split.
Qed.

(** One call keeps the diagonal of [m_Fk] zero, and the first call makes
    it so. *)
Lemma newIMUData_diagonal_zero (t : St) d settings :
  m_firstTime t = true \/ diagonal_zero (m_Fk t) ->
  diagonal_zero (m_Fk (state_after (ingest t d settings))).
Proof.
  intros Ht. destruct (m_firstTime t) eqn:Hf.
  - destruct (newIMUData_first_unfold USE_SLERP calculatePose toEuler
                t d settings Hf) as [Hs _].
    rewrite Hs. destruct t. unfold diagonal_zero. repeat split.
  - destruct Ht as [Habs | Ht]; [discriminate Habs|].
    destruct (timeDelta_of (timestamp d) t <=? of_Z 0) eqn:Hle.
    + destruct (newIMUData_discard_unfold USE_SLERP calculatePose toEuler
                  t d settings Hf Hle) as [Hs _].
      rewrite Hs. open_state t. members. exact Ht.
    + destruct (newIMUData_accept_members t d settings Hf Hle)
        as (_ & _ & _ & _ & HFk & _).
      rewrite HFk. unfold diagonal_zero in *.
      destruct (m_Fk t) as [[? ? ? ?] [? ? ? ?] [? ? ? ?] [? ? ? ?]].
      exact Ht.
Qed.

(** X5.  From the first sample on the diagonal of [m_Fk] is zero: the
    first call fills the matrix with zeros and [predict] writes the twelve
    other entries only, so after any non-empty stream fed to an object not
    yet initialized the four diagonal entries are zero. *)
Theorem feed_diagonal_zero settings (s : St) samples :
  m_firstTime s = true -> samples <> [] ->
  diagonal_zero
    (m_Fk (feed USE_SLERP calculatePose toEuler settings s samples)).
Proof.
  intros HfT Hne.
  assert (Hall : forall ds (t : St),
             diagonal_zero (m_Fk t) ->
             diagonal_zero (m_Fk (run settings t ds))).
  { induction ds as [|d ds IH]; intros t Ht; [exact Ht|].
    rewrite feed_cons. apply IH, newIMUData_diagonal_zero. right. exact Ht. }
  destruct samples as [|d ds]; [contradiction Hne; reflexivity|].
  rewrite feed_cons. apply Hall, newIMUData_diagonal_zero. left. exact HfT.
Qed.

(** X6.  [reset] is idempotent and partial: it sets [m_firstTime], zeroes
    the counter, the stored gyro, accel and compass and both poses, and
    sets both pose quaternions from the zero pose; it leaves [m_stateQ],
    [m_stateQError], [m_Fk], [m_timeDelta], [m_lastFusionTime] and the
    configuration as they are. *)
Theorem reset_idempotent_and_partial (s : St) :
  reset (reset s) = reset s /\
  (m_firstTime (reset s) = true /\ m_sampleNumber (reset s) = 0%Z /\
   m_gyro (reset s) = RTVector3_zero /\ m_accel (reset s) = RTVector3_zero /\
   m_compass (reset s) = RTVector3_zero /\
   m_fusionPose (reset s) = RTVector3_zero /\
   m_measuredPose (reset s) = RTVector3_zero /\
   m_fusionQPose (reset s) = fromEuler RTVector3_zero /\
   m_measuredQPose (reset s) = fromEuler RTVector3_zero) /\
  (m_stateQ (reset s) = m_stateQ s /\
   m_stateQError (reset s) = m_stateQError s /\ m_Fk (reset s) = m_Fk s /\
   m_timeDelta (reset s) = m_timeDelta s /\
   m_lastFusionTime (reset s) = m_lastFusionTime s /\
   m_compassValid (reset s) = m_compassValid s /\
   same_configuration (reset s) s).
Proof.
  destruct s. unfold reset, same_configuration. members. repeat split.
Qed.

(** X7.  After [reset] the old orientation is not carried over: the next
    call takes the first-sample path whatever the object held, so its
    [m_stateQ] is the Euler conversion of the pose measured from that
    sample against the zero fusion pose, [m_Fk] is zero, the time base is
    the sample's timestamp and the counter restarts. *)
Theorem reset_then_sample (s : St) data settings :
  let s' := state_after (ingest (reset s) data settings) in
  let measured :=
    calculatePose (m_enableAccel s) (m_enableCompass s) (compassValid data)
                  RTVector3_zero (fromEuler RTVector3_zero) (accel data)
                  (compass data) (m_compassAdjDeclination settings) in
  m_stateQ s' = fromEuler (fst measured) /\
  m_fusionQPose s' = fromEuler (fst measured) /\
  m_fusionPose s' = fst measured /\
  m_Fk s' = fill (of_Z 0) /\
  m_lastFusionTime s' = timestamp data /\
  m_sampleNumber s' = (if m_debug s then 2 else 1)%Z /\
  fusionQPose (data_after (ingest (reset s) data settings)) =
    fromEuler (fst measured).
Proof.
  intros s' measured. subst s' measured.
  assert (HfT : m_firstTime (reset s) = true) by (destruct s; reflexivity).
  destruct (newIMUData_first_unfold USE_SLERP calculatePose toEuler
              (reset s) data settings HfT) as [Hs Hd].
  rewrite Hs, Hd. destruct s. unfold reset, bookkeeping. members.
  repeat split.
Qed.

(** X8.  With [m_debug] set every call logs first the separator line and
    then a line with the [m_timeDelta] and the counter the object held when
    the call began: the delta printed is the previous call's, the current
    one being computed only later.  On a first sample and on a discarded
    one these two lines are the whole log.  On a kept sample exactly five
    more lines follow, in this order: the measured pose, the fused pose,
    the measured pose once more under the label "Measured quat" (the
    statement passes [m_measuredPose], not [m_measuredQPose]), the state
    quaternion and the error quaternion, all as the call leaves them. *)
Theorem newIMUData_debug_log (s : St) data settings :
  m_debug s = true ->
  let r := newIMUData USE_SLERP calculatePose toEuler s data settings in
  let s' := state_after r in
  let opening :=
    [Info "\n------\n";
     Info2 "IMU update delta time: %f, sample %d\n"
           (m_timeDelta s) (m_sampleNumber s)] in
  (m_firstTime s = true \/
   (timeDelta_of (timestamp data) s <=? of_Z 0) = true ->
   log_of r = opening) /\
  (m_firstTime s = false ->
   (timeDelta_of (timestamp data) s <=? of_Z 0) = false ->
   log_of r =
     opening ++
     [InfoRadians "Measured pose" (m_measuredPose s');
      InfoRadians "RTQF pose" (m_fusionPose s');
      InfoRadians "Measured quat" (m_measuredPose s');
      InfoQuat "RTQF quat" (m_stateQ s');
      InfoQuat "Error quat" (m_stateQError s')] /\
   List.length (log_of r) = 7%nat).
Proof.
  intros Hd r s' opening. subst r s' opening.
  open_state s. subst dbg. split.
  - intros Hpath. unfold newIMUData. destruct fT.
    + destruct eG; members; reflexivity.
    + destruct Hpath as [Hpath | Hpath]; [discriminate Hpath|].
      unfold timeDelta_of in Hpath. cbn [m_lastFusionTime] in Hpath.
      destruct eG; members; rewrite Hpath; reflexivity.
  - intros HfT Hle. subst fT. unfold newIMUData.
    unfold timeDelta_of in Hle. cbn [m_lastFusionTime] in Hle.
    destruct eG; members; rewrite Hle; members;
      match goal with
      | |- context [update USE_SLERP (predict ?x)] =>
          pose proof (update_frame USE_SLERP (predict x)) as Hu;
          pose proof (predict_frame x) as Hp;
          destruct (update USE_SLERP (predict x)); destruct (predict x)
      end;
      unfold same_bookkeeping in Hu, Hp; cbn in Hu, Hp;
      destruct Hu as [Hu _]; destruct Hp as [Hp _]; subst; members;
      split; reflexivity.
Qed.
End MoreControl.

(** ** Further properties in exact arithmetic *)

Section MoreExact.
Local Open Scope R_scope.
Local Abbreviation Quat := (RTQuaternion R).
Local Abbreviation St := (RTFusionRTQF R).

Lemma diagonal_zero_fill : diagonal_zero (fill (of_Z 0) : RTMatrix4x4 R).
Proof. unfold diagonal_zero. repeat split. Qed.

(** *** The linear gain *)

Lemma gain_bounds (q r t : R) :
  0 < q -> 0 < r -> 0 < t -> 0 < q * t / (q * t + r) < 1.
Proof.
  intros Hq Hr Ht.
  assert (Hqt : 0 < q * t) by (apply Rmult_lt_0_compat; assumption).
  split.
  - apply Rdiv_lt_0_compat; lra.
  - apply (Rmult_lt_reg_r (q * t + r)); [lra|].
    unfold Rdiv. rewrite Rmult_assoc, Rinv_l by lra. lra.
Qed.

(** X9.  In the linear build, with a source enabled and [m_Q], [m_R] and
    [m_timeDelta] positive, the gain [qt / (qt + m_R)] lies strictly
    between 0 and 1 and the correction puts in [m_stateQ] the weighted
    mean [(1 - gain) * m_stateQ + gain * m_measuredQPose], component by
    component: the state moves towards the measurement and never past
    it. *)
Theorem update_linear_weighted_mean (s : St) :
  (m_enableCompass s || m_enableAccel s) = true ->
  0 < m_Q s -> 0 < m_R s -> 0 < m_timeDelta s ->
  let k := m_Q s * m_timeDelta s / (m_Q s * m_timeDelta s + m_R s) in
  0 < k < 1 /\
  m_stateQ (update_correction false s) =
    qadd (qscale (m_stateQ s) (1 - k)) (qscale (m_measuredQPose s) k).
Proof.
  intros Hen HQ HR Ht k. split; [apply gain_bounds; assumption|].
  unfold update_correction. rewrite update_linear_unfold, Hen.
  subst k. destruct s. members.
  destruct m_stateQ0, m_measuredQPose0. unfold qadd, qsub, qscale.
  rt_unfold. unfold Rdiv. f_equal; ring.
Qed.

(** *** A measurement that agrees with the state *)

Lemma qmul_conj_self (a : Quat) :
  qnorm2 a = 1 -> qmul (conjugate a) a = mkQuaternion 1 0 0 0.
Proof.
  destruct a as [a0 a1 a2 a3]. unfold qnorm2, qmul, conjugate. rt_unfold.
  intros H. f_equal; try ring. rewrite <- H. ring.
Qed.

Lemma rotationPower_of_identity (p : R) :
  rotationPower_of (mkQuaternion 1 0 0 0) p = mkQuaternion 1 0 0 0.
Proof.
  unfold rotationPower_of, qnormalize, qlength. rt_unfold.
  rewrite acos_1, Rmult_0_l, cos_0, sin_0, !Rmult_0_l.
  replace (1 * 1 + 0 + 0 + 0) with 1 by ring.
  rewrite sqrt_1. f_equal; field.
Qed.

Lemma qone_normalized :
  qnormalize (mkQuaternion 1 0 0 0 : Quat) = mkQuaternion 1 0 0 0.
Proof.
  apply qnormalize_unit, qlength_unit. unfold qnorm2. rt_unfold. ring.
Qed.

(** With the measurement equal to a unit state, the correction of either
    build changes nothing, whatever the flags and the gains. *)
Lemma update_correction_agreeing (USE_SLERP : bool) (s : St) :
  qlength (m_stateQ s) = 1 ->
  m_measuredQPose s = m_stateQ s ->
  m_stateQ (update_correction USE_SLERP s) = m_stateQ s.
Proof.
  intros Hl Hm. pose proof (proj1 (qlength_unit _) Hl) as Hn.
  unfold update_correction. destruct USE_SLERP.
  - destruct (m_enableCompass s || m_enableAccel s) eqn:Hen.
    + destruct (update_slerp_unfold s Hen) as (_ & _ & Hq).
      rewrite Hq. unfold slerp_rotationDelta.
      rewrite Hm, (qmul_conj_self _ Hn), qone_normalized.
      rewrite rotationPower_of_identity. apply qmul_one_r.
    + rewrite (update_slerp_disabled s Hen). reflexivity.
  - rewrite update_linear_unfold, Hm.
    replace (m_stateQ (set_m_stateQ _ _)) with
      (qadd (m_stateQ s)
            (qscale (if m_enableCompass s || m_enableAccel s
                     then qsub (m_stateQ s) (m_stateQ s)
                     else RTQuaternion_zero)
                    ((m_Q s * m_timeDelta s)
                     / (m_Q s * m_timeDelta s + m_R s))%rt))
      by (destruct s; reflexivity).
    destruct (m_enableCompass s || m_enableAccel s), (m_stateQ s);
      unfold qadd, qsub, qscale, RTQuaternion_zero; rt_unfold;
      f_equal; ring.
Qed.

(** X10.  A measurement that agrees with the state is a fixed point of
    [update] in both builds: when [m_stateQ] has unit length and
    [m_measuredQPose] equals it, [update] returns [m_stateQ] unchanged,
    whatever the enable flags, the gains and [m_timeDelta]; in the slerp
    build the rotation applied is the identity. *)
Theorem update_fixed_point (USE_SLERP : bool) (s : St) :
  qlength (m_stateQ s) = 1 ->
  m_measuredQPose s = m_stateQ s ->
  m_stateQ (update USE_SLERP s) = m_stateQ s /\
  ((m_enableCompass s || m_enableAccel s) = true ->
   m_rotationPower (update_slerp s) = mkQuaternion 1 0 0 0).
Proof.
  intros Hl Hm. split.
  - rewrite update_stateQ, (update_correction_agreeing USE_SLERP s Hl Hm).
    apply qnormalize_unit. exact Hl.
  - intros Hen. destruct (update_slerp_unfold s Hen) as (_ & HrP & _).
    rewrite HrP. unfold slerp_rotationDelta.
    rewrite Hm, (qmul_conj_self _ (proj1 (qlength_unit _) Hl)).
    rewrite qone_normalized. apply rotationPower_of_identity.
Qed.

(** *** The length of the predicted quaternion *)

(** X11.  With the diagonal of [m_Fk] zero, [predict] multiplies the
    squared length of [m_stateQ] by [1 + timeDelta^2 |gyro|^2 / 4]: the
    first-order step never shortens the quaternion, lengthens it whenever
    the rate and the interval are not zero, and cannot turn a non-zero
    quaternion into the zero quaternion. *)
Theorem predict_never_shortens (s : St) :
  diagonal_zero (m_Fk s) ->
  qnorm2 (m_stateQ (predict s)) =
    qnorm2 (m_stateQ s)
    * (1 + m_timeDelta s * m_timeDelta s * rate2 (m_gyro s) / 4) /\
  qnorm2 (m_stateQ s) <= qnorm2 (m_stateQ (predict s)) /\
  (m_stateQ s <> RTQuaternion_zero ->
   m_stateQ (predict s) <> RTQuaternion_zero).
Proof.
  intros Hd. pose proof (predict_norm2 s Hd) as Hn.
  pose proof (qnorm2_nonneg (m_stateQ s)) as Hp.
  assert (Hr : 0 <= m_timeDelta s * m_timeDelta s * rate2 (m_gyro s) / 4).
  { unfold rate2. destruct (m_gyro s) as [x y z]. cbn [vx vy vz].
    assert (0 <= m_timeDelta s * m_timeDelta s) by nra.
    assert (0 <= x * x + y * y + z * z) by nra.
    assert (0 <= m_timeDelta s * m_timeDelta s * (x * x + y * y + z * z))
      by (apply Rmult_le_pos; assumption).
    lra. }
  split; [exact Hn|]. split.
  - rewrite Hn. nra.
  - intros Hnz Hz.
    assert (H0 : qnorm2 (m_stateQ (predict s)) = 0).
    { rewrite Hz. unfold qnorm2, RTQuaternion_zero. rt_unfold. ring. }
    rewrite Hn in H0.
    apply Rmult_integral in H0. destruct H0 as [H0 | H0]; [|lra].
    apply Hnz, qnorm2_zero, H0.
Qed.

(** *** Sources disabled *)

Lemma predict_gyro_zero (s : St) :
  diagonal_zero (m_Fk s) -> m_gyro s = RTVector3_zero ->
  m_stateQ (predict s) = m_stateQ s.
Proof.
  intros (H0 & H1 & H2 & H3) Hg. rewrite predict_stateQ, Hg.
  destruct s. members.
  destruct m_Fk0 as [[d0 ? ? ?] [? d1 ? ?] [? ? d2 ?] [? ? ? d3]].
  cbn in H0, H1, H2, H3. subst d0 d1 d2 d3.
  destruct m_stateQ0.
  unfold qadd, qscale, mat_mul_quat, row_dot, Fk_of, RTVector3_zero.
  cbn [r0 r1 r2 r3 c0 c1 c2 c3]. rt_unfold. f_equal; field.
Qed.

Lemma update_correction_disabled (USE_SLERP : bool) (s : St) :
  m_enableAccel s = false -> m_enableCompass s = false ->
  m_stateQ (update_correction USE_SLERP s) = m_stateQ s.
Proof.
  intros HA HC. unfold update_correction. destruct USE_SLERP.
  - rewrite update_slerp_disabled; [reflexivity|].
    rewrite HA, HC. reflexivity.
  - rewrite update_linear_unfold, HA, HC. cbn [orb].
    replace (m_stateQ (set_m_stateQ _ _)) with
      (qadd (m_stateQ s)
            (qscale RTQuaternion_zero
                    ((m_Q s * m_timeDelta s)
                     / (m_Q s * m_timeDelta s + m_R s))%rt))
      by (destruct s; reflexivity).
    destruct (m_stateQ s). unfold qadd, qscale, RTQuaternion_zero.
    rt_unfold. f_equal; ring.
Qed.

(** The state quaternion after a kept sample. *)
Lemma newIMUData_accept_stateQ (USE_SLERP : bool) calculatePose toEuler
      (s : St) data settings :
  m_firstTime s = false ->
  (timeDelta_of (timestamp data) s <=? of_Z 0)%rt = false ->
  m_stateQ (state_after
              (newIMUData USE_SLERP calculatePose toEuler s data settings)) =
  qnormalize
    (m_stateQ (update_correction USE_SLERP
                 (predict (accepted_input calculatePose s data settings)))).
Proof.
  intros HfT Hle.
  destruct (newIMUData_accept_unfold USE_SLERP calculatePose toEuler
              s data settings HfT Hle) as [Hs _].
  cbv zeta in Hs. rewrite Hs, publish_stateQ, update_stateQ. reflexivity.
Qed.

(** What [predict] finds on a kept sample. *)
Lemma accepted_input_members calculatePose (s : St) data settings :
  let a := accepted_input calculatePose s data settings in
  m_stateQ a = m_stateQ s /\ m_Fk a = m_Fk s /\
  m_gyro a = (if m_enableGyro s then gyro data else RTVector3_zero) /\
  m_timeDelta a = timeDelta_of (timestamp data) s /\
  m_enableAccel a = m_enableAccel s /\
  m_enableCompass a = m_enableCompass s /\
  m_measuredQPose a =
    snd (calculatePose (m_enableAccel s) (m_enableCompass s)
                       (compassValid data) (m_fusionPose s)
                       (m_fusionQPose s) (accel data) (compass data)
                       (m_compassAdjDeclination settings)).
Proof.
  destruct s. unfold accepted_input, bookkeeping. members. repeat split.
Qed.

(** X12.  With the gyro disabled a kept sample is not integrated: the rate
    stored is zero and, the diagonal of [m_Fk] being zero, [predict] leaves
    [m_stateQ] as it was.  With the accelerometer and the compass disabled
    as well, the whole call only renormalizes [m_stateQ]. *)
Theorem gyro_disabled_no_integration (USE_SLERP : bool) calculatePose toEuler
        (s : St) data settings :
  m_enableGyro s = false ->
  m_firstTime s = false ->
  (timeDelta_of (timestamp data) s <=? of_Z 0)%rt = false ->
  diagonal_zero (m_Fk s) ->
  let s' := state_after
              (newIMUData USE_SLERP calculatePose toEuler s data settings) in
  let a := accepted_input calculatePose s data settings in
  m_gyro s' = RTVector3_zero /\
  m_stateQ (predict a) = m_stateQ s /\
  (m_enableAccel s = false -> m_enableCompass s = false ->
   m_stateQ s' = qnormalize (m_stateQ s)).
Proof.
  intros HG HfT Hle Hd s' a.
  destruct (accepted_input_members calculatePose s data settings)
    as (HsQ & HFk & Hg & _ & HA & HC & _).
  fold a in HsQ, HFk, Hg, HA, HC. rewrite HG in Hg.
  assert (Hp : m_stateQ (predict a) = m_stateQ s).
  { rewrite predict_gyro_zero; [exact HsQ | rewrite HFk; exact Hd | exact Hg]. }
  split; [|split; [exact Hp|]].
  - destruct (newIMUData_accept_members USE_SLERP calculatePose toEuler
                s data settings HfT Hle) as (_ & _ & _ & Hg' & _).
    subst s'. rewrite Hg', HG. reflexivity.
  - intros HA0 HC0. subst s'.
    rewrite (newIMUData_accept_stateQ USE_SLERP calculatePose toEuler
               s data settings HfT Hle).
    fold a. rewrite update_correction_disabled, Hp; [reflexivity| |].
    + destruct (predict_frame a) as (_ & _ & H & _). rewrite H, HA. exact HA0.
    + destruct (predict_frame a) as (_ & _ & _ & H & _).
      rewrite H, HC. exact HC0.
Qed.

(** One call of the filter with the accelerometer and the compass
    disabled: unit length is established by the first call and kept by the
    others. *)
Lemma pure_gyro_step (USE_SLERP : bool) calculatePose toEuler
      (t : St) d settings :
  m_enableAccel t = false -> m_enableCompass t = false ->
  m_firstTime t = true \/
  (diagonal_zero (m_Fk t) /\ qlength (m_stateQ t) = 1) ->
  qlength (m_stateQ (state_after
                       (newIMUData USE_SLERP calculatePose toEuler t d
                                   settings))) = 1.
Proof.
  intros HA HC Ht. destruct (m_firstTime t) eqn:Hf.
  - destruct (newIMUData_first_unfold USE_SLERP calculatePose toEuler
                t d settings Hf) as [Hs _].
    rewrite Hs.
    match goal with
    | |- qlength (m_stateQ (set_m_firstTime _ (set_m_fusionPose _
           (set_m_fusionQPose _ (set_m_stateQ ?q ?u))))) = _ =>
        replace (m_stateQ (set_m_firstTime false (set_m_fusionPose _
           (set_m_fusionQPose _ (set_m_stateQ q u))))) with q
          by (destruct u; reflexivity)
    end.
    apply fromEuler_unit.
  - destruct Ht as [Habs | [Hd Hl]]; [discriminate Habs|].
    destruct (timeDelta_of (timestamp d) t <=? of_Z 0)%rt eqn:Hle.
    + destruct (newIMUData_discard_unfold USE_SLERP calculatePose toEuler
                  t d settings Hf Hle) as [Hs _].
      rewrite Hs. open_state t. members. exact Hl.
    + rewrite (newIMUData_accept_stateQ USE_SLERP calculatePose toEuler
                 t d settings Hf Hle).
      set (a := accepted_input calculatePose t d settings).
      destruct (accepted_input_members calculatePose t d settings)
        as (HsQ & HFk & _ & _ & HA' & HC' & _).
      fold a in HsQ, HFk, HA', HC'.
      rewrite update_correction_disabled.
      * apply qlength_qnormalize.
        assert (Hda : diagonal_zero (m_Fk a)) by (rewrite HFk; exact Hd).
        rewrite (predict_norm2 a Hda), HsQ.
        rewrite (proj1 (qlength_unit _) Hl).
        assert (0 <= m_timeDelta a * m_timeDelta a * rate2 (m_gyro a) / 4).
        { unfold rate2. destruct (m_gyro a) as [x y z]. cbn [vx vy vz].
          assert (0 <= m_timeDelta a * m_timeDelta a) by nra.
          assert (0 <= x * x + y * y + z * z) by nra.
          assert (0 <= m_timeDelta a * m_timeDelta a
                       * (x * x + y * y + z * z))
            by (apply Rmult_le_pos; assumption).
          lra. }
        lra.
      * destruct (predict_frame a) as (_ & _ & H & _).
        rewrite H, HA'. exact HA.
      * destruct (predict_frame a) as (_ & _ & _ & H & _).
        rewrite H, HC'. exact HC.
Qed.

(** X13.  Pure gyro integration keeps the state a unit quaternion: with the
    accelerometer and the compass disabled, after any non-empty stream fed
    to an object not yet initialized [m_stateQ] has unit length, in either
    build, whatever the rates, the timestamps and the samples discarded on
    the way. *)
Theorem feed_pure_gyro_unit (USE_SLERP : bool) calculatePose toEuler settings
        (s : St) samples :
  m_enableAccel s = false -> m_enableCompass s = false ->
  m_firstTime s = true -> samples <> [] ->
  qlength (m_stateQ (feed USE_SLERP calculatePose toEuler settings s
                          samples)) = 1.
Proof.
  intros HA HC HfT Hne.
  assert (Hall : forall ds (t : St),
             m_enableAccel t = false -> m_enableCompass t = false ->
             diagonal_zero (m_Fk t) -> qlength (m_stateQ t) = 1 ->
             qlength (m_stateQ (feed USE_SLERP calculatePose toEuler
                                     settings t ds)) = 1).
  { induction ds as [|d ds IH]; intros t HAt HCt Hd Hl; [exact Hl|].
    rewrite feed_cons.
    destruct (newIMUData_configuration USE_SLERP calculatePose toEuler
                t d settings) as (_ & _ & HA' & HC' & _).
    apply IH.
    - rewrite HA'. exact HAt.
    - rewrite HC'. exact HCt.
    - apply newIMUData_diagonal_zero. right. exact Hd.
    - apply pure_gyro_step; auto. }
  destruct samples as [|d ds]; [contradiction Hne; reflexivity|].
  rewrite feed_cons.
  destruct (newIMUData_configuration USE_SLERP calculatePose toEuler
              s d settings) as (_ & _ & HA' & HC' & _).
  apply Hall.
  - rewrite HA'. exact HA.
  - rewrite HC'. exact HC.
  - apply newIMUData_diagonal_zero. left. exact HfT.
  - apply pure_gyro_step; auto.
Qed.

(** *** At rest *)

(** One call at rest: no rate and a measurement equal to the unit state
    leave the state quaternion where it is. *)
Lemma rest_step (USE_SLERP : bool) calculatePose toEuler
      (t : St) d settings :
  m_firstTime t = false -> diagonal_zero (m_Fk t) ->
  qlength (m_stateQ t) = 1 ->
  gyro d = RTVector3_zero ->
  (forall ea ec cv fp fq,
      snd (calculatePose ea ec cv fp fq (accel d) (compass d)
                         (m_compassAdjDeclination settings)) = m_stateQ t) ->
  m_stateQ (state_after
              (newIMUData USE_SLERP calculatePose toEuler t d settings)) =
  m_stateQ t.
Proof.
  intros Hf Hd Hl Hg Hm.
  destruct (timeDelta_of (timestamp d) t <=? of_Z 0)%rt eqn:Hle.
  - destruct (newIMUData_discard_unfold USE_SLERP calculatePose toEuler
                t d settings Hf Hle) as [Hs _].
    rewrite Hs. destruct t. reflexivity.
  - rewrite (newIMUData_accept_stateQ USE_SLERP calculatePose toEuler
               t d settings Hf Hle).
    set (a := accepted_input calculatePose t d settings).
    destruct (accepted_input_members calculatePose t d settings)
      as (HsQ & HFk & Hga & _ & _ & _ & HmQ).
    fold a in HsQ, HFk, Hga, HmQ.
    assert (Hga0 : m_gyro a = RTVector3_zero).
    { rewrite Hga, Hg. destruct (m_enableGyro t); reflexivity. }
    assert (Hp : m_stateQ (predict a) = m_stateQ t).
    { rewrite predict_gyro_zero; [exact HsQ | rewrite HFk; exact Hd |
                                  exact Hga0]. }
    assert (Hpm : m_measuredQPose (predict a) = m_stateQ (predict a)).
    { destruct (predict_frame a)
        as (_ & _ & _ & _ & _ & _ & _ & _ & _ & _ & _ & _ & _ & _ & _ & _
            & H & _).
      rewrite H, HmQ, Hp. apply Hm. }
    rewrite update_correction_agreeing; [| rewrite Hp; exact Hl | exact Hpm].
    rewrite Hp. apply qnormalize_unit. exact Hl.
Qed.

(** X14.  The filter holds still at rest: on an initialized object whose
    [m_stateQ] has unit length and whose [m_Fk] has a zero diagonal, a
    stream of samples with zero gyro rate whose measured quaternion equals
    [m_stateQ] leaves [m_stateQ] exactly where it was, in either build,
    whatever the gains, the flags and the spacing of the timestamps. *)
Theorem feed_at_rest (USE_SLERP : bool) calculatePose toEuler settings
        (s : St) samples :
  m_firstTime s = false -> diagonal_zero (m_Fk s) ->
  qlength (m_stateQ s) = 1 ->
  (forall d, In d samples ->
             gyro d = RTVector3_zero /\
             forall ea ec cv fp fq,
               snd (calculatePose ea ec cv fp fq (accel d) (compass d)
                                  (m_compassAdjDeclination settings))
               = m_stateQ s) ->
  m_stateQ (feed USE_SLERP calculatePose toEuler settings s samples) =
  m_stateQ s.
Proof.
  intros Hf Hd Hl. revert s Hf Hd Hl.
  induction samples as [|d ds IH]; intros s Hf Hd Hl Hall; [reflexivity|].
  rewrite feed_cons.
  destruct (Hall d (or_introl eq_refl)) as [Hg Hm].
  pose proof (rest_step USE_SLERP calculatePose toEuler s d settings
                Hf Hd Hl Hg Hm) as Hstep.
  rewrite IH; [exact Hstep | | | |].
  - apply newIMUData_firstTime.
  - apply newIMUData_diagonal_zero. right. exact Hd.
  - rewrite Hstep. exact Hl.
  - intros d' Hin. rewrite Hstep. apply Hall. right. exact Hin.
Qed.

(** *** The gains of the constructor *)

(** X15.  The gains the constructor stores stay for the life of the
    object.  In the linear build, after any stream fed to a constructed
    object, [m_Q] is the value of the literal [0.001f], which is
    8589935 / 2^33, and [m_R] the value of [0.0005f], which is
    8589935 / 2^34: neither is the decimal fraction the literal spells,
    and [m_Q] is exactly twice [m_R].  So for a positive [m_timeDelta] the
    gain [qt / (qt + m_R)] is [2 dt / (2 dt + 1)], strictly between 0 and
    1.  In the slerp build [m_slerpPower] is what the constructor stored
    and [m_Q], [m_R] are whatever the base class left. *)
Theorem constructor_gains calculatePose toEuler settings (base : St)
        samples :
  (let s := feed false calculatePose toEuler settings
                 (RTFusionRTQF_init false base) samples in
   m_Q s = 8589935 / 8589934592 /\ m_R s = 8589935 / 17179869184 /\
   m_Q s = 2 * m_R s /\ m_Q s <> 1 / 1000 /\ m_R s <> 5 / 10000 /\
   m_slerpPower s = m_slerpPower base /\
   (0 < m_timeDelta s ->
    let k := m_Q s * m_timeDelta s / (m_Q s * m_timeDelta s + m_R s) in
    k = 2 * m_timeDelta s / (2 * m_timeDelta s + 1) /\ 0 < k < 1)) /\
  (let s := feed true calculatePose toEuler settings
                 (RTFusionRTQF_init true base) samples in
   m_slerpPower s = m_slerpPower (RTFusionRTQF_init true base) /\
   m_Q s = m_Q base /\ m_R s = m_R base).
Proof.
  split.
  - destruct (feed_configuration false calculatePose toEuler settings
                (RTFusionRTQF_init false base) samples)
      as (_ & _ & _ & _ & HQ & HR & Hp).
    cbv zeta. rewrite HQ, HR, Hp.
    assert (HQ0 : m_Q (RTFusionRTQF_init false base)
                  = 8589935 / 8589934592)
      by (destruct base; reflexivity).
    assert (HR0 : m_R (RTFusionRTQF_init false base)
                  = 8589935 / 17179869184)
      by (destruct base; reflexivity).
    assert (Hp0 : m_slerpPower (RTFusionRTQF_init false base)
                  = m_slerpPower base) by (destruct base; reflexivity).
    rewrite HQ0, HR0, Hp0.
    repeat split; try reflexivity; try lra.
    + field. lra.
    + apply gain_bounds; lra.
    + apply gain_bounds; lra.
  - destruct (feed_configuration true calculatePose toEuler settings
                (RTFusionRTQF_init true base) samples)
      as (_ & _ & _ & _ & HQ & HR & Hp).
    cbv zeta. rewrite HQ, HR, Hp. destruct base. repeat split.
Qed.
End MoreExact.

(** ** The further statements on the sample objects *)

Section MoreExamples.
Local Open Scope R_scope.

Lemma rest_stream_at_rest :
  forall d, In d rest_stream ->
            gyro d = RTVector3_zero /\
            forall ea ec cv fp fq,
              snd (heading_pose ea ec cv fp fq (accel d) (compass d)
                                (m_compassAdjDeclination no_declination))
              = m_stateQ rest_state.
Proof.
  intros d [H | [H | [H | []]]]; subst d; split; reflexivity.
Qed.

(** X4 on the fresh object: after the first sample the published
    quaternion is the state quaternion. *)
Lemma newIMUData_publishes_state_witness :
  (m_firstTime fresh_state = true \/
   m_fusionQPose fresh_state = m_stateQ fresh_state) /\
  let s' := state_after (newIMUData false heading_pose no_euler fresh_state
                                    first_sample no_declination) in
  m_fusionQPose s' = m_stateQ s'.
Proof.
  split; [left; reflexivity|].
  pose proof (newIMUData_publishes_state false heading_pose no_euler
                fresh_state first_sample no_declination (or_introl eq_refl))
    as H.
  cbv zeta in H. destruct H as [H _]. exact H.
Defined.

(** X5 on the fresh object and three samples at rest. *)
Lemma feed_diagonal_zero_witness :
  m_firstTime fresh_state = true /\ rest_stream <> [] /\
  diagonal_zero
    (m_Fk (feed false heading_pose no_euler no_declination fresh_state
                rest_stream)).
Proof.
  split; [reflexivity|]. split; [discriminate|].
  apply (feed_diagonal_zero false heading_pose no_euler no_declination
           fresh_state rest_stream eq_refl).
  discriminate.
Defined.

(** X8 on the resting object with the debug flag set.  A sample with the
    time base's own timestamp is dropped and logs the two opening lines,
    which carry the old delta 0 and the old counter 1.  A sample 10 ms
    later is kept and logs seven lines, the last five carrying what the
    call has left in the object. *)
Lemma newIMUData_debug_log_witness :
  let s := set_m_debug true rest_state in
  let d := sample 10000 (mkVector3 1 0 0) north in
  let r := newIMUData false heading_pose no_euler s d no_declination in
  m_debug s = true /\
  (timeDelta_of (timestamp repeated_sample) s <=? of_Z 0)%rt = true /\
  m_firstTime s = false /\
  (timeDelta_of (timestamp d) s <=? of_Z 0)%rt = false /\
  log_of (newIMUData false heading_pose no_euler s repeated_sample
                     no_declination) =
    [Info "\n------\n";
     Info2 "IMU update delta time: %f, sample %d\n" 0 1%Z] /\
  log_of r =
    [Info "\n------\n";
     Info2 "IMU update delta time: %f, sample %d\n" 0 1%Z;
     InfoRadians "Measured pose" vzero;
     InfoRadians "RTQF pose" vzero;
     InfoRadians "Measured quat" vzero;
     InfoQuat "RTQF quat" (m_stateQ (state_after r));
     InfoQuat "Error quat" (m_stateQError (state_after r))] /\
  List.length (log_of r) = 7%nat.
Proof.
  cbv zeta.
  assert (Hrej : (timeDelta_of (timestamp repeated_sample)
                               (set_m_debug true rest_state) <=? of_Z 0)%rt
                 = true) by (apply same_timestamp_rejected; reflexivity).
  assert (Hk : (timeDelta_of
                  (timestamp (sample 10000 (mkVector3 1 0 0) north))
                  (set_m_debug true rest_state) <=? of_Z 0)%rt = false)
    by (apply later_timestamp_accepted; reflexivity).
  split; [reflexivity|]. split; [exact Hrej|]. split; [reflexivity|].
  split; [exact Hk|].
  split.
  - exact (proj1 (newIMUData_debug_log false heading_pose no_euler
                    (set_m_debug true rest_state) repeated_sample
                    no_declination eq_refl) (or_intror Hrej)).
  - pose proof (proj2 (newIMUData_debug_log false heading_pose no_euler
                         (set_m_debug true rest_state)
                         (sample 10000 (mkVector3 1 0 0) north)
                         no_declination eq_refl) eq_refl Hk) as [Hlog Hlen].
    split; [|exact Hlen].
    rewrite Hlog.
    destruct (newIMUData_accept_frame false heading_pose no_euler
                (set_m_debug true rest_state)
                (sample 10000 (mkVector3 1 0 0) north) no_declination
                eq_refl Hk) as (_ & _ & _ & _ & HmP & _).
    destruct (newIMUData_accept_unfold false heading_pose no_euler
                (set_m_debug true rest_state)
                (sample 10000 (mkVector3 1 0 0) north) no_declination
                eq_refl Hk) as [Hs _].
    cbv zeta in HmP, Hs.
    assert (HfP : m_fusionPose
                    (state_after
                       (newIMUData false heading_pose no_euler
                          (set_m_debug true rest_state)
                          (sample 10000 (mkVector3 1 0 0) north)
                          no_declination)) = vzero).
    { rewrite Hs.
      match goal with
      | |- m_fusionPose (set_m_fusionQPose _ (set_m_fusionPose _ ?u)) = _ =>
          destruct u
      end.
      reflexivity. }
    rewrite HmP, HfP. reflexivity.
Defined.

(** X9 on the resting object half a second after its time base: the gain
    is between 0 and 1. *)
Lemma update_linear_weighted_mean_witness :
  let s := set_m_timeDelta (1 / 2) rest_state in
  (m_enableCompass s || m_enableAccel s) = true /\
  0 < m_Q s /\ 0 < m_R s /\ 0 < m_timeDelta s /\
  0 < m_Q s * m_timeDelta s / (m_Q s * m_timeDelta s + m_R s) < 1.
Proof.
  cbv zeta.
  assert (HQ : 0 < m_Q (set_m_timeDelta (1 / 2) rest_state))
    by (cbn; lra).
  assert (HR : 0 < m_R (set_m_timeDelta (1 / 2) rest_state))
    by (cbn; lra).
  assert (Ht : 0 < m_timeDelta (set_m_timeDelta (1 / 2) rest_state))
    by (cbn; lra).
  split; [reflexivity|]. split; [exact HQ|]. split; [exact HR|].
  split; [exact Ht|].
  pose proof (update_linear_weighted_mean
                (set_m_timeDelta (1 / 2) rest_state) eq_refl HQ HR Ht) as H.
  cbv zeta in H. destruct H as [H _]. exact H.
Defined.

(** X10 on the resting object, whose measurement is its state. *)
Lemma update_fixed_point_witness :
  qlength (m_stateQ rest_state) = 1 /\
  m_measuredQPose rest_state = m_stateQ rest_state /\
  m_stateQ (update false rest_state) = m_stateQ rest_state /\
  m_stateQ (update true rest_state) = m_stateQ rest_state.
Proof.
  split; [exact qone_unit|]. split; [reflexivity|]. split.
  - exact (proj1 (update_fixed_point false rest_state qone_unit eq_refl)).
  - exact (proj1 (update_fixed_point true rest_state qone_unit eq_refl)).
Defined.

(** X11 on the resting object: [predict] does not shorten its state. *)
Lemma predict_never_shortens_witness :
  diagonal_zero (m_Fk rest_state) /\
  qnorm2 (m_stateQ rest_state) <= qnorm2 (m_stateQ (predict rest_state)).
Proof.
  split; [exact rest_state_diagonal|].
  pose proof (predict_never_shortens rest_state rest_state_diagonal) as H.
  destruct H as (_ & H & _). exact H.
Defined.

(** X12 on the resting object with the gyro disabled, fed a turning sample
    10 ms later. *)
Lemma gyro_disabled_no_integration_witness :
  let s := set_m_enableGyro false rest_state in
  let d := sample 10000 (mkVector3 1 0 0) north in
  m_enableGyro s = false /\ m_firstTime s = false /\
  (timeDelta_of (timestamp d) s <=? of_Z 0)%rt = false /\
  diagonal_zero (m_Fk s) /\
  m_gyro (state_after (newIMUData false heading_pose no_euler s d
                                  no_declination)) = RTVector3_zero /\
  m_stateQ (predict (accepted_input heading_pose s d no_declination)) =
    m_stateQ s.
Proof.
  cbv zeta.
  assert (Hacc : (timeDelta_of
                    (timestamp (sample 10000 (mkVector3 1 0 0) north))
                    (set_m_enableGyro false rest_state) <=? of_Z 0)%rt
                 = false)
    by (apply later_timestamp_accepted; reflexivity).
  split; [reflexivity|]. split; [reflexivity|]. split; [exact Hacc|].
  split; [exact rest_state_diagonal|].
  pose proof (gyro_disabled_no_integration false heading_pose no_euler
                (set_m_enableGyro false rest_state)
                (sample 10000 (mkVector3 1 0 0) north) no_declination
                eq_refl eq_refl Hacc rest_state_diagonal) as H.
  cbv zeta in H. destruct H as (Hg & Hp & _). split; assumption.
Defined.

(** X13 on the fresh object with both corrections disabled, fed three
    turning samples. *)
Lemma feed_pure_gyro_unit_witness :
  let s := set_m_enableCompass false (set_m_enableAccel false fresh_state) in
  m_enableAccel s = false /\ m_enableCompass s = false /\
  m_firstTime s = true /\ turning_stream <> [] /\
  qlength (m_stateQ (feed false heading_pose no_euler no_declination s
                          turning_stream)) = 1.
Proof.
  cbv zeta. repeat (split; [reflexivity|]). split; [discriminate|].
  apply (feed_pure_gyro_unit false heading_pose no_euler no_declination
           (set_m_enableCompass false (set_m_enableAccel false fresh_state))
           turning_stream eq_refl eq_refl eq_refl).
  discriminate.
Defined.

(** X14 on the resting object and three samples at rest, in both
    builds. *)
Lemma feed_at_rest_witness :
  m_firstTime rest_state = false /\ diagonal_zero (m_Fk rest_state) /\
  qlength (m_stateQ rest_state) = 1 /\
  m_stateQ (feed false heading_pose no_euler no_declination rest_state
                 rest_stream) = qone /\
  m_stateQ (feed true heading_pose no_euler no_declination rest_state
                 rest_stream) = qone.
Proof.
  split; [reflexivity|]. split; [exact rest_state_diagonal|].
  split; [exact qone_unit|]. split.
  - apply (feed_at_rest false heading_pose no_euler no_declination
             rest_state rest_stream eq_refl rest_state_diagonal qone_unit
             rest_stream_at_rest).
  - apply (feed_at_rest true heading_pose no_euler no_declination
             rest_state rest_stream eq_refl rest_state_diagonal qone_unit
             rest_stream_at_rest).
Defined.
End MoreExamples.
